(** * schnetpack.sacred.dataset_ingredients

    A shallow embedding of [src/schnetpack/sacred/dataset_ingredients.py]:
    the property-map resolver [get_property_map] and the dataset dispatcher
    [get_dataset], together with the pieces of the Python runtime they call
    ([str.split], [str.upper], [os.path.splitext]).

    Python [str] values are modelled as [string] (a sequence of bytes, the
    UTF-8 encoding of the text, whose characters [str.upper] maps by the
    full uppercase mapping); Python [dict]s with string keys as
    [gmap string _], whose equality is extensional as [dict.__eq__] is.
    Arguments are taken at their documented types ([dbpath] and [dataset]
    are strings), and [os.path] is [posixpath]. *)

From Stdlib Require Import ZArith Ascii String List Floats Lia.
From stdpp Require Import base gmap strings list fin_maps.

Local Open Scope Z_scope.

(** ** Python strings *)

Module PyStr.

(** [s.count(c)] for a one-character [c]. *)
Fixpoint count (c : ascii) (s : string) : nat :=
  match s with
  | EmptyString => 0%nat
  | String a s' => ((if Ascii.eqb a c then 1 else 0) + count c s')%nat
  end.

(** [s.split(sep)] for a one-character separator: the pieces between the
    occurrences of [sep], empty pieces kept, so that [n] occurrences give
    [n + 1] pieces and [''.split(sep) == ['']]. *)
Fixpoint split (sep : ascii) (s : string) : list string :=
  match s with
  | EmptyString => [EmptyString]
  | String a s' =>
      if Ascii.eqb a sep then EmptyString :: split sep s'
      else match split sep s' with
           | piece :: rest => String a piece :: rest
           | [] => [String a EmptyString]
           end
  end.

(** The text before and after the first occurrence of [c]
    ([s.partition(c)[0]] and [s.partition(c)[2]]). *)
Fixpoint before (c : ascii) (s : string) : string :=
  match s with
  | EmptyString => EmptyString
  | String a s' => if Ascii.eqb a c then EmptyString else String a (before c s')
  end.

Fixpoint after (c : ascii) (s : string) : string :=
  match s with
  | EmptyString => EmptyString
  | String a s' => if Ascii.eqb a c then s' else after c s'
  end.

(** [s.rfind(c)]: the index of the last occurrence of [c], or [-1]. *)
Fixpoint rfind_from (c : ascii) (s : string) (i last : Z) : Z :=
  match s with
  | EmptyString => last
  | String a s' => rfind_from c s' (i + 1) (if Ascii.eqb a c then i else last)
  end.

Definition rfind (c : ascii) (s : string) : Z := rfind_from c s 0 (-1).

(** The slices [s[:n]] and [s[n:]] for [0 <= n]. *)
Fixpoint take (n : nat) (s : string) : string :=
  match n, s with
  | S n', String a s' => String a (take n' s')
  | _, _ => EmptyString
  end.

Fixpoint drop (n : nat) (s : string) : string :=
  match n, s with
  | S n', String _ s' => drop n' s'
  | _, _ => s
  end.

(** [s[i:i+1]]: the character at [i] as a string, empty out of range. *)
Definition at_index (i : nat) (s : string) : string := take 1 (drop i s).

(** *** [str.upper]

    A [str] is held as the bytes of its UTF-8 encoding, so the characters of
    a string are read off the lead bytes. *)

(** The number of bytes of the character that starts with byte [b]. *)
Definition char_len (b : ascii) : nat :=
  let n := N_of_ascii b in
  if (n <? 192)%N then 1%nat
  else if (n <? 224)%N then 2%nat
  else if (n <? 240)%N then 3%nat
  else if (n <? 248)%N then 4%nat
  else 1%nat.

(** The characters of [s], each as its bytes; [skip] bytes of the character
    under way are still to be passed over. *)
Fixpoint characters_go (skip : nat) (s : string) : list string :=
  match s with
  | EmptyString => []
  | String b rest =>
      match skip with
      | S k => characters_go k rest
      | O => take (char_len b) s :: characters_go (char_len b - 1) rest
      end
  end.

Definition characters (s : string) : list string := characters_go 0 s.

(** [''.join(l)]. *)
Definition concat (l : list string) : string := foldr String.append "" l.

(** The UTF-8 bytes of the character with code point [c]. *)
Definition utf8 (c : N) : string :=
  let byte n := String (ascii_of_N n) EmptyString in
  (if c <? 128 then byte c
   else if c <? 2048 then byte (192 + c / 64) +:+ byte (128 + c mod 64)
   else if c <? 65536 then
     byte (224 + c / 4096) +:+ byte (128 + (c / 64) mod 64)
     +:+ byte (128 + c mod 64)
   else
     byte (240 + c / 262144) +:+ byte (128 + (c / 4096) mod 64)
     +:+ byte (128 + (c / 64) mod 64) +:+ byte (128 + c mod 64))%N.

(** The full uppercase mapping of [str.upper], as CPython 3.11 (Unicode
    14.0) has it: every code point that [upper] changes, with the code
    points it becomes. A code point that is not listed is kept. *)
Definition upper_codepoints : list (N * list N) :=
  [(97, [65]); (98, [66]); (99, [67]); (100, [68]); (101, [69]); (102, [70]);
   (103, [71]); (104, [72]); (105, [73]); (106, [74]); (107, [75]);
   (108, [76]); (109, [77]); (110, [78]); (111, [79]); (112, [80]);
   (113, [81]); (114, [82]); (115, [83]); (116, [84]); (117, [85]);
   (118, [86]); (119, [87]); (120, [88]); (121, [89]); (122, [90]);
   (181, [924]); (223, [83; 83]); (224, [192]); (225, [193]); (226, [194]);
   (227, [195]); (228, [196]); (229, [197]); (230, [198]); (231, [199]);
   (232, [200]); (233, [201]); (234, [202]); (235, [203]); (236, [204]);
   (237, [205]); (238, [206]); (239, [207]); (240, [208]); (241, [209]);
   (242, [210]); (243, [211]); (244, [212]); (245, [213]); (246, [214]);
   (248, [216]); (249, [217]); (250, [218]); (251, [219]); (252, [220]);
   (253, [221]); (254, [222]); (255, [376]); (257, [256]); (259, [258]);
   (261, [260]); (263, [262]); (265, [264]); (267, [266]); (269, [268]);
   (271, [270]); (273, [272]); (275, [274]); (277, [276]); (279, [278]);
   (281, [280]); (283, [282]); (285, [284]); (287, [286]); (289, [288]);
   (291, [290]); (293, [292]); (295, [294]); (297, [296]); (299, [298]);
   (301, [300]); (303, [302]); (305, [73]); (307, [306]); (309, [308]);
   (311, [310]); (314, [313]); (316, [315]); (318, [317]); (320, [319]);
   (322, [321]); (324, [323]); (326, [325]); (328, [327]); (329, [700; 78]);
   (331, [330]); (333, [332]); (335, [334]); (337, [336]); (339, [338]);
   (341, [340]); (343, [342]); (345, [344]); (347, [346]); (349, [348]);
   (351, [350]); (353, [352]); (355, [354]); (357, [356]); (359, [358]);
   (361, [360]); (363, [362]); (365, [364]); (367, [366]); (369, [368]);
   (371, [370]); (373, [372]); (375, [374]); (378, [377]); (380, [379]);
   (382, [381]); (383, [83]); (384, [579]); (387, [386]); (389, [388]);
   (392, [391]); (396, [395]); (402, [401]); (405, [502]); (409, [408]);
   (410, [573]); (414, [544]); (417, [416]); (419, [418]); (421, [420]);
   (424, [423]); (429, [428]); (432, [431]); (436, [435]); (438, [437]);
   (441, [440]); (445, [444]); (447, [503]); (453, [452]); (454, [452]);
   (456, [455]); (457, [455]); (459, [458]); (460, [458]); (462, [461]);
   (464, [463]); (466, [465]); (468, [467]); (470, [469]); (472, [471]);
   (474, [473]); (476, [475]); (477, [398]); (479, [478]); (481, [480]);
   (483, [482]); (485, [484]); (487, [486]); (489, [488]); (491, [490]);
   (493, [492]); (495, [494]); (496, [74; 780]); (498, [497]); (499, [497]);
   (501, [500]); (505, [504]); (507, [506]); (509, [508]); (511, [510]);
   (513, [512]); (515, [514]); (517, [516]); (519, [518]); (521, [520]);
   (523, [522]); (525, [524]); (527, [526]); (529, [528]); (531, [530]);
   (533, [532]); (535, [534]); (537, [536]); (539, [538]); (541, [540]);
   (543, [542]); (547, [546]); (549, [548]); (551, [550]); (553, [552]);
   (555, [554]); (557, [556]); (559, [558]); (561, [560]); (563, [562]);
   (572, [571]); (575, [11390]); (576, [11391]); (578, [577]); (583, [582]);
   (585, [584]); (587, [586]); (589, [588]); (591, [590]); (592, [11375]);
   (593, [11373]); (594, [11376]); (595, [385]); (596, [390]); (598, [393]);
   (599, [394]); (601, [399]); (603, [400]); (604, [42923]); (608, [403]);
   (609, [42924]); (611, [404]); (613, [42893]); (614, [42922]);
   (616, [407]); (617, [406]); (618, [42926]); (619, [11362]);
   (620, [42925]); (623, [412]); (625, [11374]); (626, [413]); (629, [415]);
   (637, [11364]); (640, [422]); (642, [42949]); (643, [425]);
   (647, [42929]); (648, [430]); (649, [580]); (650, [433]); (651, [434]);
   (652, [581]); (658, [439]); (669, [42930]); (670, [42928]); (837, [921]);
   (881, [880]); (883, [882]); (887, [886]); (891, [1021]); (892, [1022]);
   (893, [1023]); (912, [921; 776; 769]); (940, [902]); (941, [904]);
   (942, [905]); (943, [906]); (944, [933; 776; 769]); (945, [913]);
   (946, [914]); (947, [915]); (948, [916]); (949, [917]); (950, [918]);
   (951, [919]); (952, [920]); (953, [921]); (954, [922]); (955, [923]);
   (956, [924]); (957, [925]); (958, [926]); (959, [927]); (960, [928]);
   (961, [929]); (962, [931]); (963, [931]); (964, [932]); (965, [933]);
   (966, [934]); (967, [935]); (968, [936]); (969, [937]); (970, [938]);
   (971, [939]); (972, [908]); (973, [910]); (974, [911]); (976, [914]);
   (977, [920]); (981, [934]); (982, [928]); (983, [975]); (985, [984]);
   (987, [986]); (989, [988]); (991, [990]); (993, [992]); (995, [994]);
   (997, [996]); (999, [998]); (1001, [1000]); (1003, [1002]);
   (1005, [1004]); (1007, [1006]); (1008, [922]); (1009, [929]);
   (1010, [1017]); (1011, [895]); (1013, [917]); (1016, [1015]);
   (1019, [1018]); (1072, [1040]); (1073, [1041]); (1074, [1042]);
   (1075, [1043]); (1076, [1044]); (1077, [1045]); (1078, [1046]);
   (1079, [1047]); (1080, [1048]); (1081, [1049]); (1082, [1050]);
   (1083, [1051]); (1084, [1052]); (1085, [1053]); (1086, [1054]);
   (1087, [1055]); (1088, [1056]); (1089, [1057]); (1090, [1058]);
   (1091, [1059]); (1092, [1060]); (1093, [1061]); (1094, [1062]);
   (1095, [1063]); (1096, [1064]); (1097, [1065]); (1098, [1066]);
   (1099, [1067]); (1100, [1068]); (1101, [1069]); (1102, [1070]);
   (1103, [1071]); (1104, [1024]); (1105, [1025]); (1106, [1026]);
   (1107, [1027]); (1108, [1028]); (1109, [1029]); (1110, [1030]);
   (1111, [1031]); (1112, [1032]); (1113, [1033]); (1114, [1034]);
   (1115, [1035]); (1116, [1036]); (1117, [1037]); (1118, [1038]);
   (1119, [1039]); (1121, [1120]); (1123, [1122]); (1125, [1124]);
   (1127, [1126]); (1129, [1128]); (1131, [1130]); (1133, [1132]);
   (1135, [1134]); (1137, [1136]); (1139, [1138]); (1141, [1140]);
   (1143, [1142]); (1145, [1144]); (1147, [1146]); (1149, [1148]);
   (1151, [1150]); (1153, [1152]); (1163, [1162]); (1165, [1164]);
   (1167, [1166]); (1169, [1168]); (1171, [1170]); (1173, [1172]);
   (1175, [1174]); (1177, [1176]); (1179, [1178]); (1181, [1180]);
   (1183, [1182]); (1185, [1184]); (1187, [1186]); (1189, [1188]);
   (1191, [1190]); (1193, [1192]); (1195, [1194]); (1197, [1196]);
   (1199, [1198]); (1201, [1200]); (1203, [1202]); (1205, [1204]);
   (1207, [1206]); (1209, [1208]); (1211, [1210]); (1213, [1212]);
   (1215, [1214]); (1218, [1217]); (1220, [1219]); (1222, [1221]);
   (1224, [1223]); (1226, [1225]); (1228, [1227]); (1230, [1229]);
   (1231, [1216]); (1233, [1232]); (1235, [1234]); (1237, [1236]);
   (1239, [1238]); (1241, [1240]); (1243, [1242]); (1245, [1244]);
   (1247, [1246]); (1249, [1248]); (1251, [1250]); (1253, [1252]);
   (1255, [1254]); (1257, [1256]); (1259, [1258]); (1261, [1260]);
   (1263, [1262]); (1265, [1264]); (1267, [1266]); (1269, [1268]);
   (1271, [1270]); (1273, [1272]); (1275, [1274]); (1277, [1276]);
   (1279, [1278]); (1281, [1280]); (1283, [1282]); (1285, [1284]);
   (1287, [1286]); (1289, [1288]); (1291, [1290]); (1293, [1292]);
   (1295, [1294]); (1297, [1296]); (1299, [1298]); (1301, [1300]);
   (1303, [1302]); (1305, [1304]); (1307, [1306]); (1309, [1308]);
   (1311, [1310]); (1313, [1312]); (1315, [1314]); (1317, [1316]);
   (1319, [1318]); (1321, [1320]); (1323, [1322]); (1325, [1324]);
   (1327, [1326]); (1377, [1329]); (1378, [1330]); (1379, [1331]);
   (1380, [1332]); (1381, [1333]); (1382, [1334]); (1383, [1335]);
   (1384, [1336]); (1385, [1337]); (1386, [1338]); (1387, [1339]);
   (1388, [1340]); (1389, [1341]); (1390, [1342]); (1391, [1343]);
   (1392, [1344]); (1393, [1345]); (1394, [1346]); (1395, [1347]);
   (1396, [1348]); (1397, [1349]); (1398, [1350]); (1399, [1351]);
   (1400, [1352]); (1401, [1353]); (1402, [1354]); (1403, [1355]);
   (1404, [1356]); (1405, [1357]); (1406, [1358]); (1407, [1359]);
   (1408, [1360]); (1409, [1361]); (1410, [1362]); (1411, [1363]);
   (1412, [1364]); (1413, [1365]); (1414, [1366]); (1415, [1333; 1362]);
   (4304, [7312]); (4305, [7313]); (4306, [7314]); (4307, [7315]);
   (4308, [7316]); (4309, [7317]); (4310, [7318]); (4311, [7319]);
   (4312, [7320]); (4313, [7321]); (4314, [7322]); (4315, [7323]);
   (4316, [7324]); (4317, [7325]); (4318, [7326]); (4319, [7327]);
   (4320, [7328]); (4321, [7329]); (4322, [7330]); (4323, [7331]);
   (4324, [7332]); (4325, [7333]); (4326, [7334]); (4327, [7335]);
   (4328, [7336]); (4329, [7337]); (4330, [7338]); (4331, [7339]);
   (4332, [7340]); (4333, [7341]); (4334, [7342]); (4335, [7343]);
   (4336, [7344]); (4337, [7345]); (4338, [7346]); (4339, [7347]);
   (4340, [7348]); (4341, [7349]); (4342, [7350]); (4343, [7351]);
   (4344, [7352]); (4345, [7353]); (4346, [7354]); (4349, [7357]);
   (4350, [7358]); (4351, [7359]); (5112, [5104]); (5113, [5105]);
   (5114, [5106]); (5115, [5107]); (5116, [5108]); (5117, [5109]);
   (7296, [1042]); (7297, [1044]); (7298, [1054]); (7299, [1057]);
   (7300, [1058]); (7301, [1058]); (7302, [1066]); (7303, [1122]);
   (7304, [42570]); (7545, [42877]); (7549, [11363]); (7566, [42950]);
   (7681, [7680]); (7683, [7682]); (7685, [7684]); (7687, [7686]);
   (7689, [7688]); (7691, [7690]); (7693, [7692]); (7695, [7694]);
   (7697, [7696]); (7699, [7698]); (7701, [7700]); (7703, [7702]);
   (7705, [7704]); (7707, [7706]); (7709, [7708]); (7711, [7710]);
   (7713, [7712]); (7715, [7714]); (7717, [7716]); (7719, [7718]);
   (7721, [7720]); (7723, [7722]); (7725, [7724]); (7727, [7726]);
   (7729, [7728]); (7731, [7730]); (7733, [7732]); (7735, [7734]);
   (7737, [7736]); (7739, [7738]); (7741, [7740]); (7743, [7742]);
   (7745, [7744]); (7747, [7746]); (7749, [7748]); (7751, [7750]);
   (7753, [7752]); (7755, [7754]); (7757, [7756]); (7759, [7758]);
   (7761, [7760]); (7763, [7762]); (7765, [7764]); (7767, [7766]);
   (7769, [7768]); (7771, [7770]); (7773, [7772]); (7775, [7774]);
   (7777, [7776]); (7779, [7778]); (7781, [7780]); (7783, [7782]);
   (7785, [7784]); (7787, [7786]); (7789, [7788]); (7791, [7790]);
   (7793, [7792]); (7795, [7794]); (7797, [7796]); (7799, [7798]);
   (7801, [7800]); (7803, [7802]); (7805, [7804]); (7807, [7806]);
   (7809, [7808]); (7811, [7810]); (7813, [7812]); (7815, [7814]);
   (7817, [7816]); (7819, [7818]); (7821, [7820]); (7823, [7822]);
   (7825, [7824]); (7827, [7826]); (7829, [7828]); (7830, [72; 817]);
   (7831, [84; 776]); (7832, [87; 778]); (7833, [89; 778]);
   (7834, [65; 702]); (7835, [7776]); (7841, [7840]); (7843, [7842]);
   (7845, [7844]); (7847, [7846]); (7849, [7848]); (7851, [7850]);
   (7853, [7852]); (7855, [7854]); (7857, [7856]); (7859, [7858]);
   (7861, [7860]); (7863, [7862]); (7865, [7864]); (7867, [7866]);
   (7869, [7868]); (7871, [7870]); (7873, [7872]); (7875, [7874]);
   (7877, [7876]); (7879, [7878]); (7881, [7880]); (7883, [7882]);
   (7885, [7884]); (7887, [7886]); (7889, [7888]); (7891, [7890]);
   (7893, [7892]); (7895, [7894]); (7897, [7896]); (7899, [7898]);
   (7901, [7900]); (7903, [7902]); (7905, [7904]); (7907, [7906]);
   (7909, [7908]); (7911, [7910]); (7913, [7912]); (7915, [7914]);
   (7917, [7916]); (7919, [7918]); (7921, [7920]); (7923, [7922]);
   (7925, [7924]); (7927, [7926]); (7929, [7928]); (7931, [7930]);
   (7933, [7932]); (7935, [7934]); (7936, [7944]); (7937, [7945]);
   (7938, [7946]); (7939, [7947]); (7940, [7948]); (7941, [7949]);
   (7942, [7950]); (7943, [7951]); (7952, [7960]); (7953, [7961]);
   (7954, [7962]); (7955, [7963]); (7956, [7964]); (7957, [7965]);
   (7968, [7976]); (7969, [7977]); (7970, [7978]); (7971, [7979]);
   (7972, [7980]); (7973, [7981]); (7974, [7982]); (7975, [7983]);
   (7984, [7992]); (7985, [7993]); (7986, [7994]); (7987, [7995]);
   (7988, [7996]); (7989, [7997]); (7990, [7998]); (7991, [7999]);
   (8000, [8008]); (8001, [8009]); (8002, [8010]); (8003, [8011]);
   (8004, [8012]); (8005, [8013]); (8016, [933; 787]); (8017, [8025]);
   (8018, [933; 787; 768]); (8019, [8027]); (8020, [933; 787; 769]);
   (8021, [8029]); (8022, [933; 787; 834]); (8023, [8031]); (8032, [8040]);
   (8033, [8041]); (8034, [8042]); (8035, [8043]); (8036, [8044]);
   (8037, [8045]); (8038, [8046]); (8039, [8047]); (8048, [8122]);
   (8049, [8123]); (8050, [8136]); (8051, [8137]); (8052, [8138]);
   (8053, [8139]); (8054, [8154]); (8055, [8155]); (8056, [8184]);
   (8057, [8185]); (8058, [8170]); (8059, [8171]); (8060, [8186]);
   (8061, [8187]); (8064, [7944; 921]); (8065, [7945; 921]);
   (8066, [7946; 921]); (8067, [7947; 921]); (8068, [7948; 921]);
   (8069, [7949; 921]); (8070, [7950; 921]); (8071, [7951; 921]);
   (8072, [7944; 921]); (8073, [7945; 921]); (8074, [7946; 921]);
   (8075, [7947; 921]); (8076, [7948; 921]); (8077, [7949; 921]);
   (8078, [7950; 921]); (8079, [7951; 921]); (8080, [7976; 921]);
   (8081, [7977; 921]); (8082, [7978; 921]); (8083, [7979; 921]);
   (8084, [7980; 921]); (8085, [7981; 921]); (8086, [7982; 921]);
   (8087, [7983; 921]); (8088, [7976; 921]); (8089, [7977; 921]);
   (8090, [7978; 921]); (8091, [7979; 921]); (8092, [7980; 921]);
   (8093, [7981; 921]); (8094, [7982; 921]); (8095, [7983; 921]);
   (8096, [8040; 921]); (8097, [8041; 921]); (8098, [8042; 921]);
   (8099, [8043; 921]); (8100, [8044; 921]); (8101, [8045; 921]);
   (8102, [8046; 921]); (8103, [8047; 921]); (8104, [8040; 921]);
   (8105, [8041; 921]); (8106, [8042; 921]); (8107, [8043; 921]);
   (8108, [8044; 921]); (8109, [8045; 921]); (8110, [8046; 921]);
   (8111, [8047; 921]); (8112, [8120]); (8113, [8121]); (8114, [8122; 921]);
   (8115, [913; 921]); (8116, [902; 921]); (8118, [913; 834]);
   (8119, [913; 834; 921]); (8124, [913; 921]); (8126, [921]);
   (8130, [8138; 921]); (8131, [919; 921]); (8132, [905; 921]);
   (8134, [919; 834]); (8135, [919; 834; 921]); (8140, [919; 921]);
   (8144, [8152]); (8145, [8153]); (8146, [921; 776; 768]);
   (8147, [921; 776; 769]); (8150, [921; 834]); (8151, [921; 776; 834]);
   (8160, [8168]); (8161, [8169]); (8162, [933; 776; 768]);
   (8163, [933; 776; 769]); (8164, [929; 787]); (8165, [8172]);
   (8166, [933; 834]); (8167, [933; 776; 834]); (8178, [8186; 921]);
   (8179, [937; 921]); (8180, [911; 921]); (8182, [937; 834]);
   (8183, [937; 834; 921]); (8188, [937; 921]); (8526, [8498]);
   (8560, [8544]); (8561, [8545]); (8562, [8546]); (8563, [8547]);
   (8564, [8548]); (8565, [8549]); (8566, [8550]); (8567, [8551]);
   (8568, [8552]); (8569, [8553]); (8570, [8554]); (8571, [8555]);
   (8572, [8556]); (8573, [8557]); (8574, [8558]); (8575, [8559]);
   (8580, [8579]); (9424, [9398]); (9425, [9399]); (9426, [9400]);
   (9427, [9401]); (9428, [9402]); (9429, [9403]); (9430, [9404]);
   (9431, [9405]); (9432, [9406]); (9433, [9407]); (9434, [9408]);
   (9435, [9409]); (9436, [9410]); (9437, [9411]); (9438, [9412]);
   (9439, [9413]); (9440, [9414]); (9441, [9415]); (9442, [9416]);
   (9443, [9417]); (9444, [9418]); (9445, [9419]); (9446, [9420]);
   (9447, [9421]); (9448, [9422]); (9449, [9423]); (11312, [11264]);
   (11313, [11265]); (11314, [11266]); (11315, [11267]); (11316, [11268]);
   (11317, [11269]); (11318, [11270]); (11319, [11271]); (11320, [11272]);
   (11321, [11273]); (11322, [11274]); (11323, [11275]); (11324, [11276]);
   (11325, [11277]); (11326, [11278]); (11327, [11279]); (11328, [11280]);
   (11329, [11281]); (11330, [11282]); (11331, [11283]); (11332, [11284]);
   (11333, [11285]); (11334, [11286]); (11335, [11287]); (11336, [11288]);
   (11337, [11289]); (11338, [11290]); (11339, [11291]); (11340, [11292]);
   (11341, [11293]); (11342, [11294]); (11343, [11295]); (11344, [11296]);
   (11345, [11297]); (11346, [11298]); (11347, [11299]); (11348, [11300]);
   (11349, [11301]); (11350, [11302]); (11351, [11303]); (11352, [11304]);
   (11353, [11305]); (11354, [11306]); (11355, [11307]); (11356, [11308]);
   (11357, [11309]); (11358, [11310]); (11359, [11311]); (11361, [11360]);
   (11365, [570]); (11366, [574]); (11368, [11367]); (11370, [11369]);
   (11372, [11371]); (11379, [11378]); (11382, [11381]); (11393, [11392]);
   (11395, [11394]); (11397, [11396]); (11399, [11398]); (11401, [11400]);
   (11403, [11402]); (11405, [11404]); (11407, [11406]); (11409, [11408]);
   (11411, [11410]); (11413, [11412]); (11415, [11414]); (11417, [11416]);
   (11419, [11418]); (11421, [11420]); (11423, [11422]); (11425, [11424]);
   (11427, [11426]); (11429, [11428]); (11431, [11430]); (11433, [11432]);
   (11435, [11434]); (11437, [11436]); (11439, [11438]); (11441, [11440]);
   (11443, [11442]); (11445, [11444]); (11447, [11446]); (11449, [11448]);
   (11451, [11450]); (11453, [11452]); (11455, [11454]); (11457, [11456]);
   (11459, [11458]); (11461, [11460]); (11463, [11462]); (11465, [11464]);
   (11467, [11466]); (11469, [11468]); (11471, [11470]); (11473, [11472]);
   (11475, [11474]); (11477, [11476]); (11479, [11478]); (11481, [11480]);
   (11483, [11482]); (11485, [11484]); (11487, [11486]); (11489, [11488]);
   (11491, [11490]); (11500, [11499]); (11502, [11501]); (11507, [11506]);
   (11520, [4256]); (11521, [4257]); (11522, [4258]); (11523, [4259]);
   (11524, [4260]); (11525, [4261]); (11526, [4262]); (11527, [4263]);
   (11528, [4264]); (11529, [4265]); (11530, [4266]); (11531, [4267]);
   (11532, [4268]); (11533, [4269]); (11534, [4270]); (11535, [4271]);
   (11536, [4272]); (11537, [4273]); (11538, [4274]); (11539, [4275]);
   (11540, [4276]); (11541, [4277]); (11542, [4278]); (11543, [4279]);
   (11544, [4280]); (11545, [4281]); (11546, [4282]); (11547, [4283]);
   (11548, [4284]); (11549, [4285]); (11550, [4286]); (11551, [4287]);
   (11552, [4288]); (11553, [4289]); (11554, [4290]); (11555, [4291]);
   (11556, [4292]); (11557, [4293]); (11559, [4295]); (11565, [4301]);
   (42561, [42560]); (42563, [42562]); (42565, [42564]); (42567, [42566]);
   (42569, [42568]); (42571, [42570]); (42573, [42572]); (42575, [42574]);
   (42577, [42576]); (42579, [42578]); (42581, [42580]); (42583, [42582]);
   (42585, [42584]); (42587, [42586]); (42589, [42588]); (42591, [42590]);
   (42593, [42592]); (42595, [42594]); (42597, [42596]); (42599, [42598]);
   (42601, [42600]); (42603, [42602]); (42605, [42604]); (42625, [42624]);
   (42627, [42626]); (42629, [42628]); (42631, [42630]); (42633, [42632]);
   (42635, [42634]); (42637, [42636]); (42639, [42638]); (42641, [42640]);
   (42643, [42642]); (42645, [42644]); (42647, [42646]); (42649, [42648]);
   (42651, [42650]); (42787, [42786]); (42789, [42788]); (42791, [42790]);
   (42793, [42792]); (42795, [42794]); (42797, [42796]); (42799, [42798]);
   (42803, [42802]); (42805, [42804]); (42807, [42806]); (42809, [42808]);
   (42811, [42810]); (42813, [42812]); (42815, [42814]); (42817, [42816]);
   (42819, [42818]); (42821, [42820]); (42823, [42822]); (42825, [42824]);
   (42827, [42826]); (42829, [42828]); (42831, [42830]); (42833, [42832]);
   (42835, [42834]); (42837, [42836]); (42839, [42838]); (42841, [42840]);
   (42843, [42842]); (42845, [42844]); (42847, [42846]); (42849, [42848]);
   (42851, [42850]); (42853, [42852]); (42855, [42854]); (42857, [42856]);
   (42859, [42858]); (42861, [42860]); (42863, [42862]); (42874, [42873]);
   (42876, [42875]); (42879, [42878]); (42881, [42880]); (42883, [42882]);
   (42885, [42884]); (42887, [42886]); (42892, [42891]); (42897, [42896]);
   (42899, [42898]); (42900, [42948]); (42903, [42902]); (42905, [42904]);
   (42907, [42906]); (42909, [42908]); (42911, [42910]); (42913, [42912]);
   (42915, [42914]); (42917, [42916]); (42919, [42918]); (42921, [42920]);
   (42933, [42932]); (42935, [42934]); (42937, [42936]); (42939, [42938]);
   (42941, [42940]); (42943, [42942]); (42945, [42944]); (42947, [42946]);
   (42952, [42951]); (42954, [42953]); (42961, [42960]); (42967, [42966]);
   (42969, [42968]); (42998, [42997]); (43859, [42931]); (43888, [5024]);
   (43889, [5025]); (43890, [5026]); (43891, [5027]); (43892, [5028]);
   (43893, [5029]); (43894, [5030]); (43895, [5031]); (43896, [5032]);
   (43897, [5033]); (43898, [5034]); (43899, [5035]); (43900, [5036]);
   (43901, [5037]); (43902, [5038]); (43903, [5039]); (43904, [5040]);
   (43905, [5041]); (43906, [5042]); (43907, [5043]); (43908, [5044]);
   (43909, [5045]); (43910, [5046]); (43911, [5047]); (43912, [5048]);
   (43913, [5049]); (43914, [5050]); (43915, [5051]); (43916, [5052]);
   (43917, [5053]); (43918, [5054]); (43919, [5055]); (43920, [5056]);
   (43921, [5057]); (43922, [5058]); (43923, [5059]); (43924, [5060]);
   (43925, [5061]); (43926, [5062]); (43927, [5063]); (43928, [5064]);
   (43929, [5065]); (43930, [5066]); (43931, [5067]); (43932, [5068]);
   (43933, [5069]); (43934, [5070]); (43935, [5071]); (43936, [5072]);
   (43937, [5073]); (43938, [5074]); (43939, [5075]); (43940, [5076]);
   (43941, [5077]); (43942, [5078]); (43943, [5079]); (43944, [5080]);
   (43945, [5081]); (43946, [5082]); (43947, [5083]); (43948, [5084]);
   (43949, [5085]); (43950, [5086]); (43951, [5087]); (43952, [5088]);
   (43953, [5089]); (43954, [5090]); (43955, [5091]); (43956, [5092]);
   (43957, [5093]); (43958, [5094]); (43959, [5095]); (43960, [5096]);
   (43961, [5097]); (43962, [5098]); (43963, [5099]); (43964, [5100]);
   (43965, [5101]); (43966, [5102]); (43967, [5103]); (64256, [70; 70]);
   (64257, [70; 73]); (64258, [70; 76]); (64259, [70; 70; 73]);
   (64260, [70; 70; 76]); (64261, [83; 84]); (64262, [83; 84]);
   (64275, [1348; 1350]); (64276, [1348; 1333]); (64277, [1348; 1339]);
   (64278, [1358; 1350]); (64279, [1348; 1341]); (65345, [65313]);
   (65346, [65314]); (65347, [65315]); (65348, [65316]); (65349, [65317]);
   (65350, [65318]); (65351, [65319]); (65352, [65320]); (65353, [65321]);
   (65354, [65322]); (65355, [65323]); (65356, [65324]); (65357, [65325]);
   (65358, [65326]); (65359, [65327]); (65360, [65328]); (65361, [65329]);
   (65362, [65330]); (65363, [65331]); (65364, [65332]); (65365, [65333]);
   (65366, [65334]); (65367, [65335]); (65368, [65336]); (65369, [65337]);
   (65370, [65338]); (66600, [66560]); (66601, [66561]); (66602, [66562]);
   (66603, [66563]); (66604, [66564]); (66605, [66565]); (66606, [66566]);
   (66607, [66567]); (66608, [66568]); (66609, [66569]); (66610, [66570]);
   (66611, [66571]); (66612, [66572]); (66613, [66573]); (66614, [66574]);
   (66615, [66575]); (66616, [66576]); (66617, [66577]); (66618, [66578]);
   (66619, [66579]); (66620, [66580]); (66621, [66581]); (66622, [66582]);
   (66623, [66583]); (66624, [66584]); (66625, [66585]); (66626, [66586]);
   (66627, [66587]); (66628, [66588]); (66629, [66589]); (66630, [66590]);
   (66631, [66591]); (66632, [66592]); (66633, [66593]); (66634, [66594]);
   (66635, [66595]); (66636, [66596]); (66637, [66597]); (66638, [66598]);
   (66639, [66599]); (66776, [66736]); (66777, [66737]); (66778, [66738]);
   (66779, [66739]); (66780, [66740]); (66781, [66741]); (66782, [66742]);
   (66783, [66743]); (66784, [66744]); (66785, [66745]); (66786, [66746]);
   (66787, [66747]); (66788, [66748]); (66789, [66749]); (66790, [66750]);
   (66791, [66751]); (66792, [66752]); (66793, [66753]); (66794, [66754]);
   (66795, [66755]); (66796, [66756]); (66797, [66757]); (66798, [66758]);
   (66799, [66759]); (66800, [66760]); (66801, [66761]); (66802, [66762]);
   (66803, [66763]); (66804, [66764]); (66805, [66765]); (66806, [66766]);
   (66807, [66767]); (66808, [66768]); (66809, [66769]); (66810, [66770]);
   (66811, [66771]); (66967, [66928]); (66968, [66929]); (66969, [66930]);
   (66970, [66931]); (66971, [66932]); (66972, [66933]); (66973, [66934]);
   (66974, [66935]); (66975, [66936]); (66976, [66937]); (66977, [66938]);
   (66979, [66940]); (66980, [66941]); (66981, [66942]); (66982, [66943]);
   (66983, [66944]); (66984, [66945]); (66985, [66946]); (66986, [66947]);
   (66987, [66948]); (66988, [66949]); (66989, [66950]); (66990, [66951]);
   (66991, [66952]); (66992, [66953]); (66993, [66954]); (66995, [66956]);
   (66996, [66957]); (66997, [66958]); (66998, [66959]); (66999, [66960]);
   (67000, [66961]); (67001, [66962]); (67003, [66964]); (67004, [66965]);
   (68800, [68736]); (68801, [68737]); (68802, [68738]); (68803, [68739]);
   (68804, [68740]); (68805, [68741]); (68806, [68742]); (68807, [68743]);
   (68808, [68744]); (68809, [68745]); (68810, [68746]); (68811, [68747]);
   (68812, [68748]); (68813, [68749]); (68814, [68750]); (68815, [68751]);
   (68816, [68752]); (68817, [68753]); (68818, [68754]); (68819, [68755]);
   (68820, [68756]); (68821, [68757]); (68822, [68758]); (68823, [68759]);
   (68824, [68760]); (68825, [68761]); (68826, [68762]); (68827, [68763]);
   (68828, [68764]); (68829, [68765]); (68830, [68766]); (68831, [68767]);
   (68832, [68768]); (68833, [68769]); (68834, [68770]); (68835, [68771]);
   (68836, [68772]); (68837, [68773]); (68838, [68774]); (68839, [68775]);
   (68840, [68776]); (68841, [68777]); (68842, [68778]); (68843, [68779]);
   (68844, [68780]); (68845, [68781]); (68846, [68782]); (68847, [68783]);
   (68848, [68784]); (68849, [68785]); (68850, [68786]); (71872, [71840]);
   (71873, [71841]); (71874, [71842]); (71875, [71843]); (71876, [71844]);
   (71877, [71845]); (71878, [71846]); (71879, [71847]); (71880, [71848]);
   (71881, [71849]); (71882, [71850]); (71883, [71851]); (71884, [71852]);
   (71885, [71853]); (71886, [71854]); (71887, [71855]); (71888, [71856]);
   (71889, [71857]); (71890, [71858]); (71891, [71859]); (71892, [71860]);
   (71893, [71861]); (71894, [71862]); (71895, [71863]); (71896, [71864]);
   (71897, [71865]); (71898, [71866]); (71899, [71867]); (71900, [71868]);
   (71901, [71869]); (71902, [71870]); (71903, [71871]); (93792, [93760]);
   (93793, [93761]); (93794, [93762]); (93795, [93763]); (93796, [93764]);
   (93797, [93765]); (93798, [93766]); (93799, [93767]); (93800, [93768]);
   (93801, [93769]); (93802, [93770]); (93803, [93771]); (93804, [93772]);
   (93805, [93773]); (93806, [93774]); (93807, [93775]); (93808, [93776]);
   (93809, [93777]); (93810, [93778]); (93811, [93779]); (93812, [93780]);
   (93813, [93781]); (93814, [93782]); (93815, [93783]); (93816, [93784]);
   (93817, [93785]); (93818, [93786]); (93819, [93787]); (93820, [93788]);
   (93821, [93789]); (93822, [93790]); (93823, [93791]); (125218, [125184]);
   (125219, [125185]); (125220, [125186]); (125221, [125187]);
   (125222, [125188]); (125223, [125189]); (125224, [125190]);
   (125225, [125191]); (125226, [125192]); (125227, [125193]);
   (125228, [125194]); (125229, [125195]); (125230, [125196]);
   (125231, [125197]); (125232, [125198]); (125233, [125199]);
   (125234, [125200]); (125235, [125201]); (125236, [125202]);
   (125237, [125203]); (125238, [125204]); (125239, [125205]);
   (125240, [125206]); (125241, [125207]); (125242, [125208]);
   (125243, [125209]); (125244, [125210]); (125245, [125211]);
   (125246, [125212]); (125247, [125213]); (125248, [125214]);
   (125249, [125215]); (125250, [125216]); (125251, [125217])]%N.

(** The same mapping on characters as byte strings. *)
Definition upper_table : list (string * string) :=
  Eval vm_compute in
    map (λ entry : N * list N, (utf8 entry.1, concat (map utf8 entry.2)))
        upper_codepoints.

(** [c.upper()] for one character [c]. *)
Definition upper_char (c : string) : string :=
  match find (λ entry : string * string, String.eqb entry.1 c) upper_table with
  | Some entry => entry.2
  | None => c
  end.

(** [s.upper()]: the uppercase of each character, in order. *)
Definition upper (s : string) : string :=
  concat (map upper_char (characters s)).

End PyStr.

(** ** Values, exceptions *)

(** Configuration values handed around by the ingredient. *)
Inductive value : Type :=
  | VNone
  | VStr (s : string)
  | VInt (n : Z)
  | VFloat (x : float)
  | VList (l : list string).

(** The exceptions the module raises, or lets through. *)
Inductive exn : Type :=
  | AtomsDataError (msg : string)
      (** [schnetpack.data.AtomsDataError] *)
  | ValueError_unpack (expected got : nat)
      (** sequence unpacking met [got] values where [expected] were needed *)
  | NotImplementedError
  | MissingConfigError (names : list string).
      (** a captured function is missing values the configuration lacks *)

Inductive outcome (A : Type) : Type :=
  | Return (a : A)
  | Raise (e : exn).
Arguments Return {A} a.
Arguments Raise {A} e.

Definition bind_outcome {A B} (m : outcome A) (f : A → outcome B) : outcome B :=
  match m with
  | Return a => f a
  | Raise e => Raise e
  end.

(** ** The property-map resolver *)

(** The [property_mapping] argument: a [dict], or its string form
    ([type(property_mapping) == str]). *)
Inductive mapping_arg : Type :=
  | MapDict (m : gmap string string)
  | MapStr (s : string).

(** [{key: value for key, value in pieces}]: each element is unpacked into
    exactly two names; the first element of another length raises, and a key
    met again takes the later value. *)
Fixpoint dict_of_pieces (pieces : list (list string)) (acc : gmap string string)
  : outcome (gmap string string) :=
  match pieces with
  | [] => Return acc
  | [key; value] :: rest => dict_of_pieces rest (<[key := value]> acc)
  | piece :: _ => Raise (ValueError_unpack 2 (length piece))
  end.

(** Lines 94-96: the dict comprehension over
    [[prop.split(':') for prop in property_mapping.split(',')]]. *)
Definition parse_property_mapping (s : string) : outcome (gmap string string) :=
  dict_of_pieces (map (PyStr.split ":") (PyStr.split "," s)) ∅.

(** Lines 93-96. *)
Definition normalize_mapping (property_mapping : mapping_arg)
  : outcome (gmap string string) :=
  match property_mapping with
  | MapStr s => parse_property_mapping s
  | MapDict m => Return m
  end.

Definition dquote : string := String "034"%char EmptyString.

(** The message of line 102-104,
    ['"{}" is not a valid property ... located ad {}.'.format(prop, dbpath)]. *)
Definition missing_property_text : string :=
  " is not a valid property that is contained in the property_mapping for the database located ad ".

Definition missing_property_msg (prop dbpath : string) : string :=
  dquote +:+ prop +:+ dquote +:+ missing_property_text +:+ dbpath +:+ ".".

(** Lines 98-105: the loop over [properties], threading [property_map]. *)
Fixpoint collect_properties (properties : list string)
    (property_mapping : gmap string string) (dbpath : string)
    (property_map : gmap string string) : outcome (gmap string string) :=
  match properties with
  | [] => Return property_map
  | prop :: rest =>
      match property_mapping !! prop with
      | Some v =>
          collect_properties rest property_mapping dbpath (<[prop := v]> property_map)
      | None => Raise (AtomsDataError (missing_property_msg prop dbpath))
      end
  end.

Definition get_property_map (properties : list string)
    (property_mapping : mapping_arg) (dbpath : string)
  : outcome (gmap string string) :=
  bind_outcome (normalize_mapping property_mapping) (λ property_mapping,
    collect_properties properties property_mapping dbpath ∅).

(** ** The dataset dispatcher *)

(** The collaborators [get_dataset] calls: the dataset classes, the generic
    database dataset and the extended-XYZ converter. *)
Inductive callee : Type :=
  | c_QM9 | c_ISO17 | c_ANI1 | c_MD17 | c_MaterialsProject
  | c_AtomsData | c_ext_xyz_to_db.

(** One call: positional arguments, then keyword arguments. *)
Record call : Type := Call {
  call_fn : callee;
  call_args : list value;
  call_kwargs : list (string * value)
}.

(** What the dispatcher does to the outside, in order. *)
Inductive event : Type :=
  | EvLog (msg : string)
  | EvCall (c : call).

(** A dataset object is known by the call that built it. *)
Inductive dataset_obj : Type :=
  | Constructed (c : call).

(** Computations that log, call collaborators and may raise. The
    collaborators themselves are taken to return. *)
Definition M (A : Type) : Type := (list event * outcome A)%type.

Definition ret {A} (a : A) : M A := ([], Return a).
Definition raise {A} (e : exn) : M A := ([], Raise e).
Definition emit (ev : event) : M unit := ([ev], Return tt).

Definition bind {A B} (m : M A) (f : A → M B) : M B :=
  match m with
  | (t, Return a) => let '(t', r) := f a in (t ++ t', r)
  | (t, Raise e) => (t, Raise e)
  end.

Notation "'do' x <- m ; k" := (bind m (λ x, k))
  (at level 10, x name, m at level 100, k at level 200, only parsing).

Definition log_info (msg : string) : M unit := emit (EvLog msg).

(** Construct a dataset: the call is made and its object returned. *)
Definition construct (fn : callee) (args : list value)
    (kwargs : list (string * value)) : M dataset_obj :=
  let c := Call fn args kwargs in
  do _ <- emit (EvCall c); ret (Constructed c).

(** A procedure call whose result is dropped. *)
Definition invoke (fn : callee) (args : list value)
    (kwargs : list (string * value)) : M unit :=
  emit (EvCall (Call fn args kwargs)).

(** [dataset_properties]: a list, or [None] (the default). *)
Definition props_value (dataset_properties : option (list string)) : value :=
  match dataset_properties with
  | Some l => VList l
  | None => VNone
  end.

(** The ingredient's configuration: the values a captured function takes for
    the parameters its caller leaves out. *)
Abbreviation config := (gmap string value).

(** The parameters of [names] that [cfg] has no value for. *)
Definition missing (cfg : config) (names : list string) : list string :=
  filter (λ n, cfg !! n = None) names.

(** Lines 108-121. *)
Definition get_ani1 (cfg : config) (dataset_properties : option (list string))
  : M dataset_obj :=
  match cfg !! "dbpath", cfg !! "num_heavy_atoms" with
  | Some dbpath, Some num_heavy_atoms =>
      construct c_ANI1 [dbpath]
        [("num_heavy_atoms", num_heavy_atoms);
         ("properties", props_value dataset_properties)]
  | _, _ => raise (MissingConfigError (missing cfg ["dbpath"; "num_heavy_atoms"]))
  end.

(** Lines 124-138. *)
Definition get_matproj (cfg : config) (dataset_properties : option (list string))
  : M dataset_obj :=
  match cfg !! "dbpath", cfg !! "cutoff", cfg !! "api_key" with
  | Some dbpath, Some cutoff, Some api_key =>
      construct c_MaterialsProject [dbpath; cutoff; api_key]
        [("properties", props_value dataset_properties)]
  | _, _, _ =>
      raise (MissingConfigError (missing cfg ["dbpath"; "cutoff"; "api_key"]))
  end.

(** Lines 141-153. *)
Definition get_iso17 (cfg : config) (dataset_properties : option (list string))
  : M dataset_obj :=
  match cfg !! "dbpath", cfg !! "fold" with
  | Some dbpath, Some fold =>
      construct c_ISO17 [dbpath; fold]
        [("properties", props_value dataset_properties)]
  | _, _ => raise (MissingConfigError (missing cfg ["dbpath"; "fold"]))
  end.

(** Lines 156-168. *)
Definition get_md17 (cfg : config) (dataset_properties : option (list string))
  : M dataset_obj :=
  match cfg !! "dbpath", cfg !! "molecule" with
  | Some dbpath, Some molecule =>
      construct c_MD17 [dbpath]
        [("molecule", molecule); ("properties", props_value dataset_properties)]
  | _, _ => raise (MissingConfigError (missing cfg ["dbpath"; "molecule"]))
  end.

(** [genericpath._splitext(p, sep, None, extsep)]: split at the last
    [extsep] when it comes after the last [sep] and the file name before it
    is not made of [extsep]s alone. The [while] loop runs over the indices
    [filenameIndex .. dotIndex - 1]; [n] counts the iterations left. *)
Fixpoint splitext_loop (p : string) (extsep : ascii) (dotIndex : Z)
    (n : nat) (filenameIndex : Z) : option (string * string) :=
  match n with
  | O => None
  | S n' =>
      if String.eqb (PyStr.at_index (Z.to_nat filenameIndex) p)
                    (String extsep EmptyString)
      then splitext_loop p extsep dotIndex n' (filenameIndex + 1)
      else Some (PyStr.take (Z.to_nat dotIndex) p, PyStr.drop (Z.to_nat dotIndex) p)
  end.

Definition genericpath_splitext (p : string) (sep extsep : ascii)
  : string * string :=
  let sepIndex := PyStr.rfind sep p in
  let dotIndex := PyStr.rfind extsep p in
  if sepIndex <? dotIndex then
    let filenameIndex := sepIndex + 1 in
    match splitext_loop p extsep dotIndex
            (Z.to_nat (dotIndex - filenameIndex)) filenameIndex with
    | Some r => r
    | None => (p, EmptyString)
    end
  else (p, EmptyString).

(** [os.path.splitext] of [posixpath]. *)
Definition splitext (p : string) : string * string :=
  genericpath_splitext p "/" ".".

(** Lines 171-207. [dbpath], [dataset] and [dataset_properties] are the
    values the call receives; [cfg] is what the captured helpers, called with
    [dataset_properties] alone, draw their other parameters from. *)
Definition get_dataset (cfg : config) (dbpath dataset : string)
    (dataset_properties : option (list string)) : M dataset_obj :=
  let dataset := PyStr.upper dataset in
  do _ <- log_info ("Load " +:+ dataset +:+ " dataset");
  if String.eqb dataset "QM9" then
    construct c_QM9 [VStr dbpath] [("properties", props_value dataset_properties)]
  else if String.eqb dataset "ISO17" then
    get_iso17 cfg dataset_properties
  else if String.eqb dataset "ANI1" then
    get_ani1 cfg dataset_properties
  else if String.eqb dataset "MD17" then
    get_md17 cfg dataset_properties
  else if String.eqb dataset "MATPROJ" then
    get_matproj cfg dataset_properties
  else if String.eqb dataset "CUSTOM" then
    let '(file, extension) := splitext dbpath in
    if String.eqb extension ".db" then
      construct c_AtomsData [VStr dbpath]
        [("required_properties", props_value dataset_properties)]
    else if String.eqb extension ".xyz" then
      do _ <- invoke c_ext_xyz_to_db []
                [("dbpath", VStr (file +:+ ".db")); ("xyzpath", VStr dbpath)];
      construct c_AtomsData [VStr (file +:+ ".db")]
        [("required_properties", props_value dataset_properties)]
    else raise NotImplementedError
  else raise NotImplementedError.

Arguments splitext : simpl never.

(** Opening the database at [path], and converting [xyzpath] into it. *)
Definition open_database (path : string)
    (dataset_properties : option (list string)) : call :=
  Call c_AtomsData [VStr path]
    [("required_properties", props_value dataset_properties)].

Definition convert_xyz (xyzpath path : string) : call :=
  Call c_ext_xyz_to_db [] [("dbpath", VStr path); ("xyzpath", VStr xyzpath)].

(** An upper- or mixed-case spelling of one of the two extensions. *)
Definition extension_variant (e : string) : Prop :=
  (PyStr.upper e = ".DB" ∨ PyStr.upper e = ".XYZ") ∧ e ≠ ".db" ∧ e ≠ ".xyz".

(** The calls made in a run, in order. *)
Definition calls_of (t : list event) : list call :=
  omap (λ ev, match ev with EvCall c => Some c | EvLog _ => None end) t.

(** The six tags the dispatcher knows. *)
Definition known_tags : list string :=
  ["QM9"; "ISO17"; "ANI1"; "MD17"; "MATPROJ"; "CUSTOM"].

(** A message names [sub] when [sub] occurs in it. *)
Definition mentions (sub msg : string) : Prop :=
  ∃ pre post, msg = pre +:+ sub +:+ post.

(** An entry of the string form that unpacks into a key and a value. *)
Definition one_colon (entry : string) : Prop := PyStr.count ":" entry = 1%nat.

(** The dict the well-formed entries denote: each entry maps the text before
    its colon to the text after it, later entries overriding earlier ones. *)
Definition dict_of_entries (entries : list string) : gmap string string :=
  foldl (λ m entry, <[PyStr.before ":" entry := PyStr.after ":" entry]> m)
        ∅ entries.

(** Mappings used in the examples below. *)
Definition energy_forces_mapping : gmap string string :=
  <["energy" := "total_energy"]> (<["forces" := "atomic_forces"]> ∅).

Definition energy_mapping : gmap string string := <["energy" := "E"]> ∅.

(** ** The string form, written out *)

(** [sep.join(l)]. *)
Fixpoint join (sep : string) (l : list string) : string :=
  match l with
  | [] => ""
  | [x] => x
  | x :: rest => x +:+ sep +:+ join sep rest
  end.

(** The entry [key:value], and the string form [k1:v1,k2:v2,...] of a list
    of pairs. *)
Definition entry_of (kv : string * string) : string := kv.1 +:+ ":" +:+ kv.2.

Definition string_form (kvs : list (string * string)) : string :=
  join "," (map entry_of kvs).

(** A key or value that the string form can carry: no comma, no colon. *)
Definition plain (s : string) : Prop :=
  PyStr.count "," s = 0%nat ∧ PyStr.count ":" s = 0%nat.

(** ** The configurations of lines 11-75 *)

(** The names the property mappings are written with. They are attributes
    of [schnetpack.atomistic.Properties] and of the dataset classes, which
    this module imports. *)
Record constants : Type := {
  Properties_energy : string;
  Properties_forces : string;
  Properties_dipole_moment : string;
  Properties_iso_polarizability : string;
  Properties_energy_contributions : string;
  ISO17_E : string;
  ISO17_F : string;
  QM9_U0 : string;
  QM9_mu : string;
  QM9_alpha : string;
  ANI1_energy : string;
  MD17_energy : string;
  MD17_forces : string;
  MaterialsProject_EPerAtom : string
}.

(** What a configuration function assigns: its plain values, and its
    [property_mapping]. A dict display [{a: x, b: y}] stores [a] first. *)
Record assignments : Type := {
  entries : config;
  property_mapping : gmap string string
}.

Module NamedConfig.

(** Lines 11-17, the default configuration. *)
Definition cfg (c : constants) : assignments := {|
  entries := <["dataset" := VStr "CUSTOM"]> (<["dbpath" := VNone]> ∅);
  property_mapping :=
    <[Properties_forces c := ISO17_F c]>
      (<[Properties_energy c := ISO17_E c]> ∅)
|}.

(** Lines 20-25. *)
Definition custom (c : constants) : assignments := {|
  entries := <["fold" := VStr "reference"]>
               (<["dbpath" := VStr "./data/iso17/reference_eq.db"]> ∅);
  property_mapping :=
    <[Properties_forces c := ISO17_F c]>
      (<[Properties_energy c := ISO17_E c]> ∅)
|}.

(** Lines 28-35. *)
Definition qm9 (c : constants) : assignments := {|
  entries := <["dataset" := VStr "QM9"]>
               (<["dbpath" := VStr "./data/qm9.db"]> ∅);
  property_mapping :=
    <[Properties_iso_polarizability c := QM9_alpha c]>
      (<[Properties_dipole_moment c := QM9_mu c]>
         (<[Properties_energy c := QM9_U0 c]> ∅))
|}.

(** Lines 38-45. *)
Definition iso17 (c : constants) : assignments := {|
  entries := <["fold" := VStr "reference"]>
               (<["dataset" := VStr "ISO17"]>
                  (<["dbpath" := VStr "./data"]> ∅));
  property_mapping :=
    <[Properties_forces c := ISO17_F c]>
      (<[Properties_energy c := ISO17_E c]> ∅)
|}.

(** Lines 48-54. *)
Definition ani1 (c : constants) : assignments := {|
  entries := <["num_heavy_atoms" := VInt 2]>
               (<["dataset" := VStr "ANI1"]>
                  (<["dbpath" := VStr "./data/ani1.db"]> ∅));
  property_mapping := <[Properties_energy c := ANI1_energy c]> ∅
|}.

(** Lines 57-64. *)
Definition md17 (c : constants) : assignments := {|
  entries := <["molecule" := VStr "aspirin"]>
               (<["dataset" := VStr "MD17"]>
                  (<["dbpath" := VStr "./data"]> ∅));
  property_mapping :=
    <[Properties_forces c := MD17_forces c]>
      (<[Properties_energy c := MD17_energy c]> ∅)
|}.

(** Lines 67-75. *)
Definition matproj (c : constants) : assignments := {|
  entries := <["api_key" := VStr ""]>
               (<["cutoff" := VFloat 5%float]>
                  (<["dataset" := VStr "MATPROJ"]>
                     (<["dbpath" := VStr "./data/matproj.db"]> ∅)));
  property_mapping :=
    <[Properties_energy_contributions c := MaterialsProject_EPerAtom c]> ∅
|}.

(** The named configurations. *)
Definition named (c : constants) : list assignments :=
  [custom c; qm9 c; iso17 c; ani1 c; md17 c; matproj c].

End NamedConfig.

(** The plain values in force when a named configuration is selected: its
    own, then the default ones it leaves alone. *)
Definition selected (c : constants) (named : assignments) : config :=
  entries named ∪ entries (NamedConfig.cfg c).

(** [get_dataset(dataset_properties=...)]: the call that leaves [dbpath] and
    [dataset] to the configuration. [None] when one of them is absent or is
    not a string. *)
Definition get_dataset_injected (cfg : config)
    (dataset_properties : option (list string)) : option (M dataset_obj) :=
  match cfg !! "dbpath", cfg !! "dataset" with
  | Some (VStr dbpath), Some (VStr dataset) =>
      Some (get_dataset cfg dbpath dataset dataset_properties)
  | _, _ => None
  end.

(** The dataset classes, as opposed to the converter. *)
Definition is_dataset_class (fn : callee) : Prop := fn ≠ c_ext_xyz_to_db.

(** The tags that are served by a captured helper. *)
Definition helper_tags : list string := ["ISO17"; "ANI1"; "MD17"; "MATPROJ"].

(** ** Characters and the uppercase table *)

(** A character with all the bytes its lead byte announces, and one that has
    no more bytes than that. *)
Definition completeb (c : string) : bool :=
  match c with
  | String b _ => Nat.eqb (String.length c) (PyStr.char_len b)
  | EmptyString => false
  end.

Definition char_shapedb (c : string) : bool :=
  match c with
  | String b _ => Nat.leb (String.length c) (PyStr.char_len b)
  | EmptyString => false
  end.

(** What the uppercase table is relied on for: every listed character is
    complete, and what it becomes is not empty, is made of complete
    characters and is left alone by [upper]. *)
Definition entry_ok (entry : string * string) : bool :=
  completeb entry.1
  && forallb completeb (PyStr.characters entry.2)
  && String.eqb (PyStr.upper entry.2) entry.2
  && negb (String.eqb entry.2 "").

(** The characters whose uppercase is [o]. *)
Definition candidates (o : string) : list string :=
  (if char_shapedb o then [o] else [])
  ++ map fst (List.filter (λ entry : string * string, String.eqb entry.2 o)
                PyStr.upper_table).

(** The strings whose uppercase can be [target]: a first character whose
    uppercase is a prefix of [target], then a string whose uppercase is the
    rest. [fuel] bounds the length of [target]. *)
Fixpoint preimages (fuel : nat) (target : string) : list string :=
  match fuel, target with
  | _, EmptyString => [EmptyString]
  | O, _ => []
  | S fuel', _ =>
      flat_map (λ k,
        flat_map (λ c,
          map (String.append c) (preimages fuel' (PyStr.drop k target)))
          (candidates (PyStr.take k target)))
        (seq 1 (String.length target))
  end.

(** ** Sanity checks on concrete inputs *)

Example split_empty : PyStr.split "," "" = [""].
Proof. reflexivity. Qed.

Example split_three : PyStr.split ":" "a:b:c" = ["a"; "b"; "c"].
Proof. reflexivity. Qed.

Example split_trailing : PyStr.split "," "a,,b," = ["a"; ""; "b"; ""].
Proof. reflexivity. Qed.

Example upper_mixed : PyStr.upper "Iso17-z{" = "ISO17-Z{".
Proof. vm_compute. reflexivity. Qed.

Example upper_long_s : PyStr.upper "cuſtom" = "CUSTOM".
Proof. vm_compute. reflexivity. Qed.

Example upper_dotless_i : PyStr.upper "ıso17" = "ISO17".
Proof. vm_compute. reflexivity. Qed.

Example upper_accent : PyStr.upper "qmé" = "QMÉ".
Proof. vm_compute. reflexivity. Qed.

Example upper_sharp_s : PyStr.upper "straße" = "STRASSE".
Proof. vm_compute. reflexivity. Qed.

Example upper_ligature : PyStr.upper "ﬁle-ω" = "FILE-Ω".
Proof. vm_compute. reflexivity. Qed.

Example characters_mixed :
  PyStr.characters "qmé€" = ["q"; "m"; "é"; "€"].
Proof. vm_compute. reflexivity. Qed.

(** A tag whose uppercase is [CUSTOM] only by the full mapping (the long s)
    takes the [CUSTOM] branch, and one with a letter outside ASCII is logged
    in capitals. *)
Example get_dataset_long_s_opens :
  get_dataset ∅ "x.db" "cuſtom" None
  = ([EvLog "Load CUSTOM dataset"; EvCall (open_database "x.db" None)],
     Return (Constructed (open_database "x.db" None))).
Proof. vm_compute. reflexivity. Qed.

Example get_dataset_long_s_converts :
  get_dataset ∅ "mol.xyz" "cuſtom" None
  = ([EvLog "Load CUSTOM dataset"; EvCall (convert_xyz "mol.xyz" "mol.db");
      EvCall (open_database "mol.db" None)],
     Return (Constructed (open_database "mol.db" None))).
Proof. vm_compute. reflexivity. Qed.

Example get_dataset_accent_logged :
  get_dataset ∅ "x.db" "qmé" None
  = ([EvLog "Load QMÉ dataset"], Raise NotImplementedError).
Proof. vm_compute. reflexivity. Qed.

Example splitext_plain : splitext "foo.xyz" = ("foo", ".xyz").
Proof. reflexivity. Qed.

Example splitext_hidden : splitext "a/.db" = ("a/.db", "").
Proof. reflexivity. Qed.

Example splitext_dots : splitext "..db" = ("..db", "").
Proof. reflexivity. Qed.

Example splitext_dir_dot : splitext "a.b/c" = ("a.b/c", "").
Proof. reflexivity. Qed.

Example splitext_double : splitext "...a..db" = ("...a.", ".db").
Proof. reflexivity. Qed.

Example rfind_absent : PyStr.rfind "/" "foo.xyz" = -1.
Proof. reflexivity. Qed.

(** ** Facts about the string operations *)

Section string_facts.
Implicit Types (s t u : string) (a c : ascii).

Lemma app_cons a s t : String a s +:+ t = String a (s +:+ t).
Proof. reflexivity. Qed.

Lemma app_nil_r s : s +:+ "" = s.
Proof. induction s as [|a s IH]; [done|]. by rewrite app_cons, IH. Qed.

Lemma app_assoc s t u : (s +:+ t) +:+ u = s +:+ t +:+ u.
Proof. induction s as [|a s IH]; [done|]. by rewrite !app_cons, IH. Qed.

Lemma length_app s t :
  String.length (s +:+ t) = (String.length s + String.length t)%nat.
Proof.
  induction s as [|a s IH]; [done|]. rewrite app_cons. simpl. by rewrite IH.
Qed.

Lemma take_drop (n : nat) s : PyStr.take n s +:+ PyStr.drop n s = s.
Proof.
  revert s. induction n as [|n IH]; intros [|a s]; simpl; try done.
  by rewrite app_cons, IH.
Qed.

Lemma take_app_length s t : PyStr.take (String.length s) (s +:+ t) = s.
Proof. induction s as [|a s IH]; simpl; [by destruct t|]. by rewrite IH. Qed.

Lemma drop_app_length s t : PyStr.drop (String.length s) (s +:+ t) = t.
Proof. induction s as [|a s IH]; simpl; [by destruct t|]. done. Qed.

(** Two ways of cutting one string: one tail is a tail of the other. *)
Lemma app_eq_tails s1 t1 s2 t2 :
  s1 +:+ t1 = s2 +:+ t2 →
  (∃ u, t1 = u +:+ t2) ∨ (∃ u, t2 = u +:+ t1).
Proof.
  revert s2. induction s1 as [|a s1 IH]; intros s2 Heq.
  - left. by exists s2.
  - destruct s2 as [|b s2].
    + right. exists (String a s1). exact (eq_sym Heq).
    + rewrite !app_cons in Heq. injection Heq as _ Heq. by apply (IH s2).
Qed.

(** [n] separators make [n + 1] pieces. *)
Lemma split_length c s :
  length (PyStr.split c s) = S (PyStr.count c s).
Proof.
  induction s as [|a s IH]; [done|]. simpl.
  destruct (Ascii.eqb a c); simpl; [by rewrite IH|].
  destruct (PyStr.split c s) as [|piece rest]; simpl in *; lia.
Qed.

Lemma split_no_sep c s : PyStr.count c s = 0%nat → PyStr.split c s = [s].
Proof.
  induction s as [|a s IH]; [done|]. simpl.
  destruct (Ascii.eqb a c); [done|]. intros H. by rewrite IH.
Qed.

(** With one separator the two pieces are the text on either side of it. *)
Lemma split_one_sep c s :
  PyStr.count c s = 1%nat →
  PyStr.split c s = [PyStr.before c s; PyStr.after c s].
Proof.
  induction s as [|a s IH]; [done|]. simpl.
  destruct (Ascii.eqb a c); simpl; intros H.
  - rewrite split_no_sep; [done|lia].
  - by rewrite IH.
Qed.

Lemma before_after c s :
  (0 < PyStr.count c s)%nat →
  s = PyStr.before c s +:+ String c (PyStr.after c s).
Proof.
  induction s as [|a s IH]; simpl; [lia|].
  destruct (Ascii.eqb_spec a c) as [->|Hne]; simpl; intros H; [done|].
  by rewrite app_cons, <- IH.
Qed.

End string_facts.

(** ** Facts about [str.upper] *)

Lemma upper_table_checked : forallb entry_ok PyStr.upper_table = true.
Proof. vm_compute. reflexivity. Qed.

Section upper_facts.
Implicit Types (s t c r o x : string) (b : ascii) (fuel k n : nat).

Lemma concat_app (l1 l2 : list string) :
  PyStr.concat (l1 ++ l2) = PyStr.concat l1 +:+ PyStr.concat l2.
Proof.
  induction l1 as [|x l1 IH]; [done|]. simpl.
  change (PyStr.concat (x :: l1 ++ l2)) with (x +:+ PyStr.concat (l1 ++ l2)).
  change (PyStr.concat (x :: l1)) with (x +:+ PyStr.concat l1).
  by rewrite IH, app_assoc.
Qed.

Lemma char_len_pos b : (1 ≤ PyStr.char_len b)%nat.
Proof. unfold PyStr.char_len. repeat case_match; lia. Qed.

Lemma length_take n s :
  (n ≤ String.length s)%nat → String.length (PyStr.take n s) = n.
Proof.
  revert s. induction n as [|n IH]; intros [|a s] Hn; simpl in *;
    try done; try lia. rewrite IH; lia.
Qed.

Lemma length_drop n s :
  String.length (PyStr.drop n s) = (String.length s - n)%nat.
Proof.
  revert s. induction n as [|n IH]; intros [|a s]; simpl; try done; lia.
Qed.

Lemma take_ge n s : (String.length s ≤ n)%nat → PyStr.take n s = s.
Proof.
  revert s. induction n as [|n IH]; intros [|a s] Hn; simpl in *;
    try done; try lia. rewrite IH; [done|lia].
Qed.

Lemma characters_go_ge k s :
  (String.length s ≤ k)%nat → PyStr.characters_go k s = [].
Proof.
  revert k. induction s as [|a s IH]; intros k Hk; [done|].
  simpl in *. destruct k as [|k]; [lia|]. apply IH. lia.
Qed.

Lemma characters_go_skip t r :
  PyStr.characters_go (String.length t) (t +:+ r) = PyStr.characters r.
Proof. induction t as [|a t IH]; [done|]. rewrite app_cons. simpl. done. Qed.

Lemma completeb_cons b t :
  completeb (String b t) = true ↔ S (String.length t) = PyStr.char_len b.
Proof. unfold completeb. apply Nat.eqb_eq. Qed.

(** A complete character is read off the front of a string as it is. *)
Lemma characters_complete c r :
  completeb c = true →
  PyStr.characters (c +:+ r) = c :: PyStr.characters r.
Proof.
  destruct c as [|b t]; [done|]. intros Hc%completeb_cons.
  unfold PyStr.characters at 1. rewrite app_cons.
  simpl PyStr.characters_go. rewrite <- Hc. simpl.
  by rewrite take_app_length, Nat.sub_0_r, characters_go_skip.
Qed.

(** The last character of a string may be cut short. *)
Lemma characters_short b t :
  (String.length (String b t) < PyStr.char_len b)%nat →
  PyStr.characters (String b t) = [String b t].
Proof.
  intros Hlt. unfold PyStr.characters. simpl PyStr.characters_go.
  rewrite take_ge by lia. rewrite characters_go_ge; [done|].
  simpl in Hlt. lia.
Qed.

(** A string starts with a complete character, or is one cut short. *)
Lemma first_character b t :
  (∃ c r, String b t = c +:+ r ∧ completeb c = true
          ∧ (String.length r < String.length (String b t))%nat)
  ∨ (String.length (String b t) < PyStr.char_len b)%nat.
Proof.
  destruct (le_lt_dec (PyStr.char_len b) (String.length (String b t)))
    as [Hle|Hlt]; [left|by right].
  exists (PyStr.take (PyStr.char_len b) (String b t)),
         (PyStr.drop (PyStr.char_len b) (String b t)).
  pose proof (char_len_pos b) as Hpos. split_and!.
  - by rewrite take_drop.
  - pose proof (length_take _ _ Hle) as Hlen.
    destruct (PyStr.char_len b) as [|n] eqn:Hcl; [lia|].
    change (PyStr.take (S n) (String b t))
      with (String b (PyStr.take n t)) in *.
    apply completeb_cons. rewrite Hcl. simpl in Hlen. done.
  - rewrite length_drop. lia.
Qed.

Lemma upper_table_entry (entry : string * string) :
  In entry PyStr.upper_table →
  completeb entry.1 = true
  ∧ Forall (λ c, completeb c = true) (PyStr.characters entry.2)
  ∧ PyStr.upper entry.2 = entry.2
  ∧ entry.2 ≠ "".
Proof.
  intros Hin.
  pose proof (proj1 (List.forallb_forall entry_ok PyStr.upper_table)
                upper_table_checked entry Hin) as Hok.
  unfold entry_ok in Hok.
  apply andb_true_iff in Hok as [Hok H4]. apply andb_true_iff in Hok as [Hok H3].
  apply andb_true_iff in Hok as [H1 H2]. split_and!; [done| | |].
  - apply Forall_forall. intros c Hc. rewrite List.forallb_forall in H2.
    apply H2. by apply list_elem_of_In.
  - by apply String.eqb_eq.
  - apply negb_true_iff, String.eqb_neq in H4. done.
Qed.

(** What [upper_char] returns: the entry of the table, or the character. *)
Lemma upper_char_cases c :
  (∃ entry, In entry PyStr.upper_table ∧ entry.1 = c
            ∧ PyStr.upper_char c = entry.2)
  ∨ PyStr.upper_char c = c.
Proof.
  unfold PyStr.upper_char.
  destruct (find _ _) as [entry|] eqn:Hfind; [left|by right].
  apply List.find_some in Hfind as [Hin Heq]. exists entry.
  split_and!; [done|by apply String.eqb_eq|done].
Qed.

Lemma upper_char_incomplete c :
  completeb c = false → PyStr.upper_char c = c.
Proof.
  intros Hc. destruct (upper_char_cases c) as [(entry & Hin & <- & _)|]; [|done].
  apply upper_table_entry in Hin as [Hk _]. congruence.
Qed.

Lemma upper_complete c r :
  completeb c = true →
  PyStr.upper (c +:+ r) = PyStr.upper_char c +:+ PyStr.upper r.
Proof.
  intros Hc. unfold PyStr.upper. by rewrite characters_complete.
Qed.

Lemma upper_short b t :
  (String.length (String b t) < PyStr.char_len b)%nat →
  PyStr.upper (String b t) = String b t.
Proof.
  intros Hlt. unfold PyStr.upper. rewrite characters_short by done.
  simpl. change (PyStr.concat [PyStr.upper_char (String b t)])
    with (PyStr.upper_char (String b t) +:+ "").
  rewrite app_nil_r. apply upper_char_incomplete.
  unfold completeb. apply Nat.eqb_neq. lia.
Qed.

(** The uppercase of a complete character: not empty, made of complete
    characters, and left alone by [upper]. *)
Lemma upper_char_out c :
  completeb c = true →
  PyStr.upper_char c ≠ ""
  ∧ Forall (λ c', completeb c' = true) (PyStr.characters (PyStr.upper_char c))
  ∧ PyStr.upper (PyStr.upper_char c) = PyStr.upper_char c.
Proof.
  intros Hc.
  destruct (upper_char_cases c) as [(entry & Hin & <- & ->)| Hsame].
  - apply upper_table_entry in Hin as (_ & H2 & H3 & H4). done.
  - rewrite Hsame. pose proof (characters_complete c "" Hc) as Hch.
    pose proof (upper_complete c "" Hc) as Hup.
    rewrite app_nil_r in Hch, Hup. rewrite Hsame in Hup.
    split_and!.
    + by destruct c.
    + rewrite Hch. by repeat constructor.
    + rewrite Hup. change (PyStr.upper "") with "". by rewrite app_nil_r.
Qed.

(** [upper] goes through a string made of complete characters. *)
Lemma upper_app_complete o x :
  Forall (λ c, completeb c = true) (PyStr.characters o) →
  PyStr.upper (o +:+ x) = PyStr.upper o +:+ PyStr.upper x.
Proof.
  remember (String.length o) as n eqn:Hn. revert o Hn.
  induction n as [n IH] using lt_wf_ind. intros o Hn Hall.
  destruct o as [|b t]; [done|].
  destruct (first_character b t) as [(c & r & Heq & Hc & Hlen)|Hshort].
  - rewrite Heq in Hall |- *. rewrite characters_complete in Hall by done.
    apply Forall_cons in Hall as [_ Hall].
    rewrite app_assoc, (upper_complete c (r +:+ x)), (upper_complete c r)
      by done.
    rewrite (IH (String.length r)); [by rewrite app_assoc| |done|done].
    subst n. done.
  - rewrite characters_short in Hall by done.
    apply Forall_inv in Hall. apply completeb_cons in Hall.
    simpl in Hshort. lia.
Qed.

(** [upper] leaves an uppercased string alone. *)
Lemma upper_idemp s : PyStr.upper (PyStr.upper s) = PyStr.upper s.
Proof.
  remember (String.length s) as n eqn:Hn. revert s Hn.
  induction n as [n IH] using lt_wf_ind. intros s Hn.
  destruct s as [|b t]; [done|].
  destruct (first_character b t) as [(c & r & Heq & Hc & Hlen)|Hshort].
  - rewrite Heq, upper_complete by done.
    destruct (upper_char_out c Hc) as (_ & Hall & Hfix).
    rewrite upper_app_complete, Hfix by done.
    by rewrite (IH (String.length r)); [|subst n|].
  - by rewrite !upper_short.
Qed.

Lemma app_take_drop s t x :
  s +:+ t = x →
  s = PyStr.take (String.length s) x ∧ t = PyStr.drop (String.length s) x.
Proof. intros <-. by rewrite take_app_length, drop_app_length. Qed.

Lemma upper_char_candidates c :
  char_shapedb c = true → In c (candidates (PyStr.upper_char c)).
Proof.
  intros Hc. unfold candidates. apply in_or_app.
  destruct (upper_char_cases c) as [(entry & Hin & <- & ->)| ->].
  - right. apply List.in_map, List.filter_In. split; [done|].
    apply String.eqb_refl.
  - left. rewrite Hc. by left.
Qed.

Lemma preimages_empty fuel : preimages fuel "" = [""].
Proof. by destruct fuel. Qed.

(** Every string whose uppercase is [target] is among [preimages]. *)
Lemma preimages_sound fuel (target e : string) :
  (String.length target ≤ fuel)%nat →
  PyStr.upper e = target → In e (preimages fuel target).
Proof.
  revert target e. induction fuel as [|fuel IH]; intros target e Hfuel Hup.
  - destruct target; [|simpl in Hfuel; lia]. destruct e as [|b t]; [by left|].
    exfalso. destruct (first_character b t) as [(c & r & Heq & Hc & _)|Hshort].
    + rewrite Heq, upper_complete in Hup by done.
      destruct (upper_char_out c Hc) as (Hne & _).
      by destruct (PyStr.upper_char c).
    + by rewrite upper_short in Hup.
  - destruct e as [|b t].
    { change (PyStr.upper "") with "" in Hup. subst target. by left. }
    destruct (first_character b t) as [(c & r & Heq & Hc & _)|Hshort].
    + rewrite Heq, upper_complete in Hup by done. rewrite Heq.
      destruct (upper_char_out c Hc) as (Hne & _).
      pose proof (f_equal String.length Hup) as Hlen.
      rewrite length_app in Hlen.
      apply app_take_drop in Hup as [Hc' Hr].
      set (k := String.length (PyStr.upper_char c)) in *.
      assert (1 ≤ k)%nat as Hk.
      { subst k. destruct (PyStr.upper_char c); [done|simpl; lia]. }
      destruct target as [|a target']; [simpl in Hlen; lia|].
      change (In (c +:+ r)
                (flat_map (λ k,
                   flat_map (λ c,
                     map (String.append c)
                       (preimages fuel (PyStr.drop k (String a target'))))
                     (candidates (PyStr.take k (String a target'))))
                   (seq 1 (String.length (String a target'))))).
      apply in_flat_map. exists k. split; [apply in_seq; lia|].
      apply in_flat_map. exists c. split.
      * rewrite <- Hc'. apply upper_char_candidates.
        destruct c as [|b' t']; [done|]. apply completeb_cons in Hc.
        unfold char_shapedb. apply Nat.leb_le. simpl. lia.
      * apply List.in_map. apply IH; [|done].
        rewrite length_drop. lia.
    + rewrite upper_short in Hup by done. subst target.
      change (In (String b t)
                (flat_map (λ k,
                   flat_map (λ c,
                     map (String.append c)
                       (preimages fuel (PyStr.drop k (String b t))))
                     (candidates (PyStr.take k (String b t))))
                   (seq 1 (String.length (String b t))))).
      apply in_flat_map. exists (String.length (String b t)).
      split; [apply in_seq; simpl; lia|].
      apply in_flat_map. exists (String b t). split.
      * rewrite take_ge by done. unfold candidates. apply in_or_app. left.
        assert (char_shapedb (String b t) = true) as ->; [|by left].
        unfold char_shapedb. apply Nat.leb_le. lia.
      * apply in_map_iff. exists "". split; [apply app_nil_r|].
        pose proof (drop_app_length (String b t) "") as Hd.
        rewrite app_nil_r in Hd. rewrite Hd, preimages_empty. by left.
Qed.

(** The case variants of the two extensions, spelled out. *)
Lemma extension_variant_cases (e : string) :
  extension_variant e →
  In e [".DB"; ".Db"; ".dB";
        ".XYZ"; ".XYz"; ".XyZ"; ".Xyz"; ".xYZ"; ".xYz"; ".xyZ"].
Proof.
  intros ([Hup|Hup] & Hdb & Hxyz).
  - apply (preimages_sound 3) in Hup; [|simpl; lia]. vm_compute in Hup.
    repeat (destruct Hup as [<-|Hup];
            [first [done | by repeat first [left; reflexivity | right]]|]).
    destruct Hup.
  - apply (preimages_sound 4) in Hup; [|simpl; lia]. vm_compute in Hup.
    repeat (destruct Hup as [<-|Hup];
            [first [done | by repeat first [left; reflexivity | right]]|]).
    destruct Hup.
Qed.

End upper_facts.

(** ** Facts about the resolver *)

Section resolver_facts.
Implicit Types (P : list string) (M R acc : gmap string string).
Implicit Types (p q dbpath : string).

Lemma collect_properties_present P M dbpath acc :
  (∀ p, p ∈ P → p ∈ dom M) →
  ∃ R, collect_properties P M dbpath acc = Return R
       ∧ dom R = list_to_set P ∪ dom acc
       ∧ (∀ p, p ∈ P → R !! p = M !! p)
       ∧ (∀ p, p ∉ P → R !! p = acc !! p).
Proof.
  revert acc. induction P as [|prop rest IH]; intros acc Hin; simpl.
  - exists acc. split_and!; [done| | |done].
    + change (dom acc = ∅ ∪ dom acc). by rewrite (left_id_L ∅ (∪)).
    + intros p Hp. by apply elem_of_nil in Hp.
  - destruct (M !! prop) as [v|] eqn:Hv.
    2:{ exfalso. assert (prop ∈ dom M) as Hd by (apply Hin; left).
        apply elem_of_dom in Hd as [? ?]. congruence. }
    destruct (IH (<[prop := v]> acc)) as (R & HR & Hdom & Hlk & Hrest).
    { intros p Hp. apply Hin. by right. }
    exists R. split_and!; [done| | |].
    + rewrite Hdom, dom_insert_L.
      change (list_to_set (prop :: rest)) with ({[prop]} ∪ list_to_set rest).
      apply set_eq. intros x. rewrite !elem_of_union. tauto.
    + intros p Hp. destruct (decide (p ∈ rest)) as [|Hnot]; [by apply Hlk|].
      apply elem_of_cons in Hp as [->|]; [|done].
      by rewrite (Hrest _ Hnot), lookup_insert_eq.
    + intros p Hp. apply not_elem_of_cons in Hp as [Hne Hp].
      by rewrite (Hrest _ Hp), lookup_insert_ne.
Qed.

Lemma collect_properties_missing P1 p P2 M dbpath acc :
  (∀ q, q ∈ P1 → q ∈ dom M) → p ∉ dom M →
  collect_properties (P1 ++ p :: P2) M dbpath acc
  = Raise (AtomsDataError (missing_property_msg p dbpath)).
Proof.
  revert acc. induction P1 as [|prop rest IH]; intros acc Hin Hp; simpl.
  - apply not_elem_of_dom in Hp. by rewrite Hp.
  - assert (prop ∈ dom M) as Hd by (apply Hin; left).
    apply elem_of_dom in Hd as [v Hv]. rewrite Hv.
    apply IH; [|done]. intros q Hq. apply Hin. by right.
Qed.

(** A list with an absent property has a first one. *)
Lemma first_missing P M :
  (∃ p, p ∈ P ∧ p ∉ dom M) →
  ∃ P1 p P2, P = P1 ++ p :: P2 ∧ (∀ q, q ∈ P1 → q ∈ dom M) ∧ p ∉ dom M.
Proof.
  induction P as [|prop rest IH]; intros (p & Hp & Hout).
  - by apply elem_of_nil in Hp.
  - destruct (decide (prop ∈ dom M)) as [Hd|Hd].
    + apply elem_of_cons in Hp as [->|Hp]; [done|].
      destruct IH as (P1 & p' & P2 & -> & Hin & Hout'); [by exists p|].
      exists (prop :: P1), p', P2. split_and!; [done| |done].
      intros q Hq. apply elem_of_cons in Hq as [->|Hq]; [done|by apply Hin].
    + exists [], prop, rest. split_and!; [done| |done].
      intros q Hq. by apply elem_of_nil in Hq.
Qed.

Lemma mentions_prop p dbpath : mentions p (missing_property_msg p dbpath).
Proof. exists dquote. eexists. unfold missing_property_msg. reflexivity. Qed.

Lemma mentions_dbpath p dbpath : mentions dbpath (missing_property_msg p dbpath).
Proof.
  exists (dquote +:+ p +:+ dquote +:+ missing_property_text), ".".
  unfold missing_property_msg. by rewrite 3!app_assoc.
Qed.

(** The unpacking loop on well-formed entries. *)
Lemma dict_of_pieces_entries (entries : list string) acc :
  Forall one_colon entries →
  dict_of_pieces (map (PyStr.split ":") entries) acc
  = Return (foldl (λ m entry,
              <[PyStr.before ":" entry := PyStr.after ":" entry]> m)
            acc entries).
Proof.
  revert acc. induction entries as [|e rest IH]; intros acc Hall; [done|].
  apply Forall_cons in Hall as [He Hrest]. simpl.
  rewrite (split_one_sep _ _ He). by apply IH.
Qed.

(** The unpacking loop stops at the first entry that is not well formed. *)
Lemma dict_of_pieces_bad (entries : list string) acc :
  Exists (λ e, ¬ one_colon e) entries →
  ∃ got, got ≠ 2%nat
         ∧ dict_of_pieces (map (PyStr.split ":") entries) acc
           = Raise (ValueError_unpack 2 got).
Proof.
  revert acc. induction entries as [|e rest IH]; intros acc Hex.
  - by apply Exists_nil in Hex.
  - simpl. destruct (decide (one_colon e)) as [He|He].
    + rewrite (split_one_sep _ _ He). apply IH.
      apply Exists_cons in Hex as [|]; done.
    + pose proof (split_length ":" e) as Hlen. unfold one_colon in He.
      exists (length (PyStr.split ":" e)). split; [lia|].
      destruct (PyStr.split ":" e) as [|k [|v [|w rest']]]; simpl in *;
        try done; lia.
Qed.

End resolver_facts.

(** ** The resolver: claims *)

(** C1. For a mapping given as a dict, [get_property_map] returns a map whose
    keys are exactly the requested properties, each carrying the value the
    mapping gives it, when every requested property is a key of the mapping;
    and it fails when some requested property is not a key of the mapping. *)
Theorem get_property_map_dict (P : list string) (M : gmap string string)
    (dbpath : string) :
  ((∀ p, p ∈ P → p ∈ dom M) →
     ∃ R, get_property_map P (MapDict M) dbpath = Return R
          ∧ dom R = list_to_set P
          ∧ ∀ p, p ∈ P → R !! p = M !! p)
  ∧ ((∃ p, p ∈ P ∧ p ∉ dom M) →
     ∃ e, get_property_map P (MapDict M) dbpath = Raise e).
Proof.
  split.
  - intros Hin.
    destruct (collect_properties_present P M dbpath ∅ Hin)
      as (R & HR & Hdom & Hlk & _).
    exists R. split_and!; [done| |done].
    by rewrite Hdom, dom_empty_L, (right_id_L ∅ (∪)).
  - intros Hex. apply first_missing in Hex as (P1 & p & P2 & -> & Hin & Hout).
    eexists. unfold get_property_map. simpl.
    by apply collect_properties_missing.
Qed.

Lemma get_property_map_dict_witness :
  (∃ R, get_property_map ["forces"; "energy"]
          (MapDict energy_forces_mapping) "./data" = Return R
        ∧ dom R = list_to_set ["forces"; "energy"]
        ∧ ∀ p, p ∈ ["forces"; "energy"] → R !! p = energy_forces_mapping !! p)
  ∧ (∃ e, get_property_map ["energy"; "dipole_moment"]
            (MapDict energy_forces_mapping) "./data" = Raise e).
Proof.
  split.
  - apply (proj1 (get_property_map_dict ["forces"; "energy"]
                    energy_forces_mapping "./data")).
    intros p Hp. apply elem_of_dom.
    apply elem_of_cons in Hp as [->|Hp]; [by eexists|].
    apply elem_of_cons in Hp as [->|Hp]; [by eexists|].
    by apply elem_of_nil in Hp.
  - apply (proj2 (get_property_map_dict ["energy"; "dipole_moment"]
                    energy_forces_mapping "./data")).
    exists "dipole_moment". split; [by right; left|].
    apply not_elem_of_dom. reflexivity.
Defined.

(** C6. When some requested property is absent from the mapping, the failure
    is an [AtomsDataError] raised for the first absent property in list
    order, and its message names that property and the database path. *)
Theorem get_property_map_missing (P : list string)
    (property_mapping : mapping_arg) (M : gmap string string)
    (dbpath : string) :
  normalize_mapping property_mapping = Return M →
  (∃ p, p ∈ P ∧ p ∉ dom M) →
  ∃ P1 p P2,
    P = P1 ++ p :: P2
    ∧ (∀ q, q ∈ P1 → q ∈ dom M) ∧ (p ∉ dom M)
    ∧ get_property_map P property_mapping dbpath
      = Raise (AtomsDataError (missing_property_msg p dbpath))
    ∧ mentions p (missing_property_msg p dbpath)
    ∧ mentions dbpath (missing_property_msg p dbpath).
Proof.
  intros Hnorm Hex.
  apply first_missing in Hex as (P1 & p & P2 & -> & Hin & Hout).
  exists P1, p, P2. split_and!; try done.
  - unfold get_property_map. rewrite Hnorm. simpl.
    by apply collect_properties_missing.
  - apply mentions_prop.
  - apply mentions_dbpath.
Qed.

Lemma get_property_map_missing_witness :
  ∃ P1 p P2,
    ["energy"; "forces"; "stress"] = P1 ++ p :: P2
    ∧ (∀ q, q ∈ P1 → q ∈ dom energy_mapping) ∧ (p ∉ dom energy_mapping)
    ∧ get_property_map ["energy"; "forces"; "stress"]
        (MapDict energy_mapping) "qm9.db"
      = Raise (AtomsDataError (missing_property_msg p "qm9.db"))
    ∧ mentions p (missing_property_msg p "qm9.db")
    ∧ mentions "qm9.db" (missing_property_msg p "qm9.db").
Proof.
  apply (get_property_map_missing ["energy"; "forces"; "stress"]
           (MapDict energy_mapping) energy_mapping "qm9.db").
  - reflexivity.
  - exists "forces". split; [by right; left|].
    apply not_elem_of_dom. reflexivity.
Defined.

(** C2, as the code has it. The string form is split on commas and every
    entry on each of its colons; when every entry has exactly one colon the
    result is the dict that maps the text before each entry's colon to the
    text after it (the entry being the two joined by the colon), later
    entries overriding earlier ones. In particular
    ["energy:E,forces:F"] parses to [{"energy": "E", "forces": "F"}], and the
    resolver treats the string as it treats that dict. *)
Theorem parse_property_mapping_entries :
  (∀ s, Forall one_colon (PyStr.split "," s) →
        parse_property_mapping s
        = Return (dict_of_entries (PyStr.split "," s))
        ∧ Forall (λ e, e = PyStr.before ":" e +:+ ":" +:+ PyStr.after ":" e)
                 (PyStr.split "," s))
  ∧ parse_property_mapping "energy:E,forces:F"
    = Return (<["energy" := "E"]> (<["forces" := "F"]> ∅))
  ∧ (∀ P dbpath,
       get_property_map P (MapStr "energy:E,forces:F") dbpath
       = get_property_map P
           (MapDict (<["energy" := "E"]> (<["forces" := "F"]> ∅))) dbpath).
Proof.
  split_and!.
  - intros s Hall. split.
    + unfold parse_property_mapping, dict_of_entries.
      by apply dict_of_pieces_entries.
    + eapply Forall_impl; [exact Hall|]. intros e He.
      apply (before_after ":" e). unfold one_colon in He. lia.
  - reflexivity.
  - intros P dbpath. reflexivity.
Qed.

Lemma parse_property_mapping_entries_witness :
  parse_property_mapping "energy:E"
  = Return (dict_of_entries (PyStr.split "," "energy:E"))
  ∧ Forall (λ e, e = PyStr.before ":" e +:+ ":" +:+ PyStr.after ":" e)
           (PyStr.split "," "energy:E").
Proof.
  apply (proj1 parse_property_mapping_entries "energy:E").
  repeat constructor.
Defined.

(** C2, as the claim has it, fails: an entry whose value contains a colon is
    cut into three pieces, which do not unpack into a key and a value. *)
Lemma parse_value_with_colon :
  parse_property_mapping "energy:col:0" = Raise (ValueError_unpack 2 3)
  ∧ parse_property_mapping "energy:col:0"
    ≠ Return (<["energy" := "col:0"]> ∅).
Proof. split; [reflexivity|discriminate]. Qed.

(** C10. The string form parses exactly when every comma-separated entry has
    one colon. With an entry of no colon, or of two or more, unpacking fails
    with a [ValueError] on a piece count other than two, and the resolver
    raises it whatever the requested properties and the path are: no
    property has been looked at, and no [AtomsDataError] is raised. *)
Theorem get_property_map_string_form (s : string) :
  (Forall one_colon (PyStr.split "," s) →
     ∃ M, parse_property_mapping s = Return M)
  ∧ (Exists (λ e, ¬ one_colon e) (PyStr.split "," s) →
     ∃ got, got ≠ 2%nat
       ∧ ∀ P dbpath,
           get_property_map P (MapStr s) dbpath
           = Raise (ValueError_unpack 2 got)).
Proof.
  split.
  - intros Hall. eexists. unfold parse_property_mapping.
    by apply dict_of_pieces_entries.
  - intros Hex.
    destruct (dict_of_pieces_bad _ ∅ Hex) as (got & Hgot & Hraise).
    exists got. split; [done|]. intros P dbpath.
    unfold get_property_map. simpl. unfold parse_property_mapping.
    by rewrite Hraise.
Qed.

Lemma get_property_map_string_form_witness :
  (∃ M, parse_property_mapping "energy:E,forces:F" = Return M)
  ∧ (∃ got, got ≠ 2%nat
       ∧ ∀ P dbpath,
           get_property_map P (MapStr "energy:E,forces") dbpath
           = Raise (ValueError_unpack 2 got)).
Proof.
  split.
  - apply (proj1 (get_property_map_string_form "energy:E,forces:F")).
    repeat constructor.
  - apply (proj2 (get_property_map_string_form "energy:E,forces")).
    apply Exists_cons_tl, Exists_cons_hd. discriminate.
Defined.

(** The empty string is not a mapping: its one entry has no colon. *)
Example get_property_map_empty_string :
  get_property_map [] (MapStr "") "x.db" = Raise (ValueError_unpack 2 1).
Proof. reflexivity. Qed.

(** ** Facts about the dispatcher *)

(** Two spellings of different case do not end the same string. *)
Ltac variant_clash u H :=
  exfalso; destruct u as [|? [|? [|? [|? [|? ?]]]]];
  vm_compute in H; discriminate H.

Section dispatcher_facts.
Implicit Types (cfg : config) (p dbpath file ext stem e t : string).
Implicit Types (props : option (list string)).

Lemma splitext_loop_cut p extsep dotIndex n i r :
  splitext_loop p extsep dotIndex n i = Some r →
  r = (PyStr.take (Z.to_nat dotIndex) p, PyStr.drop (Z.to_nat dotIndex) p).
Proof.
  revert i. induction n as [|n IH]; intros i; simpl; [done|].
  destruct (String.eqb _ _); [apply IH|]. by intros [= <-].
Qed.

(** The two parts of [splitext] make up the path. *)
Lemma splitext_join p file ext : splitext p = (file, ext) → p = file +:+ ext.
Proof.
  unfold splitext, genericpath_splitext.
  destruct (_ <? _).
  - destruct (splitext_loop _ _ _ _ _) as [r|] eqn:Hloop.
    + apply splitext_loop_cut in Hloop as ->. intros [= <- <-].
      by rewrite take_drop.
    + intros [= <- <-]. by rewrite app_nil_r.
  - intros [= <- <-]. by rewrite app_nil_r.
Qed.

(** The dispatcher on a tag that reads [CUSTOM]. *)
Lemma get_dataset_custom cfg dbpath t props :
  PyStr.upper t = "CUSTOM" →
  get_dataset cfg dbpath t props
  = bind (log_info "Load CUSTOM dataset") (λ _,
      let '(file, extension) := splitext dbpath in
      if String.eqb extension ".db" then
        construct c_AtomsData [VStr dbpath]
          [("required_properties", props_value props)]
      else if String.eqb extension ".xyz" then
        bind (invoke c_ext_xyz_to_db []
                [("dbpath", VStr (file +:+ ".db")); ("xyzpath", VStr dbpath)])
             (λ _, construct c_AtomsData [VStr (file +:+ ".db")]
                     [("required_properties", props_value props)])
      else raise NotImplementedError).
Proof. intros Ht. unfold get_dataset. rewrite Ht. reflexivity. Qed.

Lemma get_dataset_custom_other cfg dbpath t props :
  PyStr.upper t = "CUSTOM" →
  (splitext dbpath).2 ≠ ".db" → (splitext dbpath).2 ≠ ".xyz" →
  get_dataset cfg dbpath t props
  = ([EvLog "Load CUSTOM dataset"], Raise NotImplementedError).
Proof.
  intros Ht Hdb Hxyz. rewrite (get_dataset_custom _ _ _ _ Ht).
  destruct (splitext dbpath) as [file ext]. simpl in Hdb, Hxyz.
  apply String.eqb_neq in Hdb, Hxyz. by rewrite Hdb, Hxyz.
Qed.

(** A path that ends in a case variant of an extension does not have the
    extension itself. *)
Lemma variant_not_extension stem e file ext :
  extension_variant e → stem +:+ e = file +:+ ext →
  ext ≠ ".db" ∧ ext ≠ ".xyz".
Proof.
  intros Hin%extension_variant_cases Heq.
  split; intros ->; apply app_eq_tails in Heq as [[u Hu]|[u Hu]].
  all: repeat (destruct Hin as [<-|Hin]; [variant_clash u Hu|]); destruct Hin.
Qed.

End dispatcher_facts.

(** *** [splitext] on ordinary file names *)

Section splitext_facts.
Implicit Types (s t p stem rest : string) (a c : ascii) (i last : Z).

Lemma rfind_from_absent c s i last :
  PyStr.count c s = 0%nat → PyStr.rfind_from c s i last = last.
Proof.
  revert i last. induction s as [|a s IH]; intros i last; simpl; [done|].
  destruct (Ascii.eqb a c); [done|]. intros H. by apply IH.
Qed.

Lemma rfind_from_app c s t i last :
  PyStr.rfind_from c (s +:+ t) i last
  = PyStr.rfind_from c t (i + Z.of_nat (String.length s))
      (PyStr.rfind_from c s i last).
Proof.
  revert i last. induction s as [|a s IH]; intros i last.
  - simpl. change ("" +:+ t) with t. by rewrite Z.add_0_r.
  - rewrite app_cons. simpl PyStr.rfind_from. rewrite IH. f_equal.
    simpl String.length. lia.
Qed.

(** The index found lies in the string, unless nothing was found. *)
Lemma rfind_from_range c s i last :
  last < i →
  PyStr.rfind_from c s i last < i + Z.of_nat (String.length s).
Proof.
  revert i last. induction s as [|a s IH]; intros i last Hlt; simpl.
  - lia.
  - destruct (Ascii.eqb a c).
    + specialize (IH (i + 1) i). lia.
    + specialize (IH (i + 1) last). lia.
Qed.

Lemma rfind_from_lower c s i last :
  -1 ≤ last → 0 ≤ i → -1 ≤ PyStr.rfind_from c s i last.
Proof.
  revert i last. induction s as [|a s IH]; intros i last Hl Hi; simpl; [done|].
  destruct (Ascii.eqb a c); apply IH; lia.
Qed.

(** The loop stops at a character of the file name that is not a dot. *)
Lemma splitext_loop_found p extsep dotIndex (n : nat) i (j : nat) a :
  0 ≤ i → i ≤ Z.of_nat j < i + Z.of_nat n →
  PyStr.at_index j p = String a "" → a ≠ extsep →
  splitext_loop p extsep dotIndex n i
  = Some (PyStr.take (Z.to_nat dotIndex) p, PyStr.drop (Z.to_nat dotIndex) p).
Proof.
  revert i. induction n as [|n IH]; intros i Hi Hj Hat Hne; [lia|].
  simpl. destruct (String.eqb_spec (PyStr.at_index (Z.to_nat i) p)
                     (String extsep "")) as [Heq|_]; [|done].
  apply IH; [lia| |done..].
  destruct (decide (Z.of_nat j = i)) as [<-|]; [|lia].
  rewrite Nat2Z.id, Hat in Heq. by injection Heq.
Qed.

(** A file name that ends in a character other than a dot or a slash,
    followed by a dot and a suffix free of dots and slashes, is split at
    that dot. *)
Lemma splitext_ordinary stem a rest :
  a ≠ "/"%char → a ≠ "."%char →
  PyStr.count "." rest = 0%nat → PyStr.count "/" rest = 0%nat →
  splitext (stem +:+ String a "" +:+ String "." rest)
  = (stem +:+ String a "", String "." rest).
Proof.
  intros Hsl Hdot Hrd Hrs.
  set (n := String.length stem).
  assert (PyStr.rfind "." (stem +:+ String a "" +:+ String "." rest)
          = Z.of_nat n + 1) as Hd.
  { unfold PyStr.rfind. rewrite <- app_assoc, rfind_from_app, length_app.
    simpl. rewrite rfind_from_absent by done. subst n. lia. }
  assert (PyStr.rfind "/" (stem +:+ String a "" +:+ String "." rest)
          < Z.of_nat n) as Hs.
  { unfold PyStr.rfind. rewrite rfind_from_app. simpl.
    apply Ascii.eqb_neq in Hsl. rewrite Hsl.
    rewrite rfind_from_absent by done.
    pose proof (rfind_from_range "/" stem 0 (-1)). subst n. lia. }
  assert (-1 ≤ PyStr.rfind "/" (stem +:+ String a "" +:+ String "." rest))
    as Hs'.
  { unfold PyStr.rfind. by apply rfind_from_lower. }
  unfold splitext, genericpath_splitext. rewrite Hd.
  destruct (Z.ltb_spec
              (PyStr.rfind "/" (stem +:+ String a "" +:+ String "." rest))
              (Z.of_nat n + 1)) as [_|]; [|lia].
  rewrite (splitext_loop_found _ _ _ _ _ n a); try done; try lia.
  - replace (Z.to_nat (Z.of_nat n + 1)) with
      (String.length (stem +:+ String a "")).
    + by rewrite <- app_assoc, take_app_length, drop_app_length.
    + rewrite length_app. simpl. subst n. lia.
  - unfold PyStr.at_index. subst n. by rewrite drop_app_length.
Qed.

End splitext_facts.

(** On an ordinary file name the [CUSTOM] branch reads the extension off the
    end of the path. *)
Lemma get_dataset_custom_xyz_ordinary (cfg : config) (stem : string)
    (a : ascii) (dataset_properties : option (list string)) :
  a ≠ "/"%char → a ≠ "."%char →
  get_dataset cfg (stem +:+ String a "" +:+ ".xyz") "CUSTOM" dataset_properties
  = ([EvLog "Load CUSTOM dataset";
      EvCall (convert_xyz (stem +:+ String a "" +:+ ".xyz")
                          ((stem +:+ String a "") +:+ ".db"));
      EvCall (open_database ((stem +:+ String a "") +:+ ".db")
                            dataset_properties)],
     Return (Constructed (open_database ((stem +:+ String a "") +:+ ".db")
                                        dataset_properties))).
Proof.
  intros Hsl Hdot.
  rewrite (get_dataset_custom cfg _ "CUSTOM" dataset_properties eq_refl).
  by rewrite (splitext_ordinary stem a "xyz" Hsl Hdot eq_refl eq_refl).
Qed.

Lemma get_dataset_custom_db_ordinary (cfg : config) (stem : string)
    (a : ascii) (dataset_properties : option (list string)) :
  a ≠ "/"%char → a ≠ "."%char →
  get_dataset cfg (stem +:+ String a "" +:+ ".db") "CUSTOM" dataset_properties
  = ([EvLog "Load CUSTOM dataset";
      EvCall (open_database (stem +:+ String a "" +:+ ".db")
                            dataset_properties)],
     Return (Constructed (open_database (stem +:+ String a "" +:+ ".db")
                                        dataset_properties))).
Proof.
  intros Hsl Hdot.
  rewrite (get_dataset_custom cfg _ "CUSTOM" dataset_properties eq_refl).
  by rewrite (splitext_ordinary stem a "db" Hsl Hdot eq_refl eq_refl).
Qed.

(** ** The dispatcher: claims *)

(** C7. With the tag [QM9] the dispatcher builds a QM9 dataset from the
    given path and the given property list and nothing else: the one call
    is [QM9(dbpath, properties=...)] with the list it was handed ([None]
    when it was handed none), and whatever the configuration holds for
    fold, molecule, heavy-atom count, cutoff or API key, none of it is
    passed. *)
Theorem get_dataset_qm9 (cfg : config) (dbpath : string) :
  (∀ properties : list string,
     get_dataset cfg dbpath "QM9" (Some properties)
     = ([EvLog "Load QM9 dataset";
         EvCall (Call c_QM9 [VStr dbpath]
                   [("properties", VList properties)])],
        Return (Constructed (Call c_QM9 [VStr dbpath]
                               [("properties", VList properties)]))))
  ∧ get_dataset cfg dbpath "QM9" None
    = ([EvLog "Load QM9 dataset";
        EvCall (Call c_QM9 [VStr dbpath] [("properties", VNone)])],
       Return (Constructed (Call c_QM9 [VStr dbpath]
                              [("properties", VNone)])))
  ∧ get_dataset cfg dbpath "QM9" (Some ["energy_U0"; "dipole_moment"])
    = ([EvLog "Load QM9 dataset";
        EvCall (Call c_QM9 [VStr dbpath]
                  [("properties", VList ["energy_U0"; "dipole_moment"])])],
       Return (Constructed
                 (Call c_QM9 [VStr dbpath]
                    [("properties", VList ["energy_U0"; "dipole_moment"])]))).
Proof.
  assert (PyStr.upper "QM9" = "QM9") as Hup by (vm_compute; reflexivity).
  unfold get_dataset. rewrite Hup. split_and!; [intros properties|..];
    reflexivity.
Qed.

(** C8. The dispatcher does not see the case of the tag. On a tag and on
    its uppercased form it logs the same message, makes the same calls and
    ends in the same dataset or the same failure; so do any two tags with
    the same uppercased form. The spellings listed run as the tag in
    capitals does, and [qm9] in small letters builds the QM9 dataset. *)
Theorem get_dataset_case_insensitive (cfg : config) (dbpath : string)
    (dataset_properties : option (list string)) :
  (∀ t, get_dataset cfg dbpath t dataset_properties
        = get_dataset cfg dbpath (PyStr.upper t) dataset_properties)
  ∧ (∀ t t', PyStr.upper t = PyStr.upper t' →
       get_dataset cfg dbpath t dataset_properties
       = get_dataset cfg dbpath t' dataset_properties)
  ∧ Forall (λ spelling : string * string,
              get_dataset cfg dbpath spelling.1 dataset_properties
              = get_dataset cfg dbpath spelling.2 dataset_properties)
           [("qm9", "QM9"); ("Qm9", "QM9"); ("iso17", "ISO17");
            ("Ani1", "ANI1"); ("md17", "MD17"); ("matProj", "MATPROJ");
            ("custom", "CUSTOM"); ("Custom", "CUSTOM");
            ("cuſtom", "CUSTOM"); ("ıso17", "ISO17");
            ("fooBar", "FOOBAR")]
  ∧ (∀ properties : list string,
       get_dataset cfg dbpath "qm9" (Some properties)
       = ([EvLog "Load QM9 dataset";
           EvCall (Call c_QM9 [VStr dbpath]
                     [("properties", VList properties)])],
          Return (Constructed (Call c_QM9 [VStr dbpath]
                                 [("properties", VList properties)])))).
Proof.
  assert (∀ t t', PyStr.upper t = PyStr.upper t' →
            get_dataset cfg dbpath t dataset_properties
            = get_dataset cfg dbpath t' dataset_properties) as Hsame.
  { intros t t' Heq. unfold get_dataset. by rewrite Heq. }
  split_and!.
  - intros t. apply Hsame. by rewrite upper_idemp.
  - exact Hsame.
  - repeat constructor; apply Hsame; vm_compute; reflexivity.
  - intros properties.
    assert (PyStr.upper "qm9" = "QM9") as Hup by (vm_compute; reflexivity).
    unfold get_dataset. rewrite Hup. reflexivity.
Qed.

Lemma get_dataset_case_insensitive_witness :
  get_dataset ∅ "./data/qm9.db" "Qm9" (Some ["energy_U0"])
  = get_dataset ∅ "./data/qm9.db" "qM9" (Some ["energy_U0"]).
Proof.
  apply (proj1 (proj2 (get_dataset_case_insensitive ∅ "./data/qm9.db"
                         (Some ["energy_U0"]))) "Qm9" "qM9").
  vm_compute. reflexivity.
Defined.

(** C5. A tag whose uppercased form is none of the six known tags makes the
    dispatcher fail with [NotImplementedError]: nothing is called and no
    dataset is returned. *)
Theorem get_dataset_unknown_tag (cfg : config) (dbpath t : string)
    (dataset_properties : option (list string)) :
  PyStr.upper t ∉ known_tags →
  get_dataset cfg dbpath t dataset_properties
  = ([EvLog ("Load " +:+ PyStr.upper t +:+ " dataset")],
     Raise NotImplementedError).
Proof.
  intros Hnot. unfold get_dataset.
  assert (∀ tag, tag ∈ known_tags → String.eqb (PyStr.upper t) tag = false)
    as Hne.
  { intros tag Htag. apply String.eqb_neq. by intros <-. }
  rewrite !Hne; [reflexivity|..]; unfold known_tags;
    repeat first [by left | right].
Qed.

Lemma get_dataset_unknown_tag_witness :
  get_dataset ∅ "./data/qm9.db" "foobar" None
  = ([EvLog "Load FOOBAR dataset"], Raise NotImplementedError)
  ∧ get_dataset ∅ "./data/qm9.db" "qmé" None
    = ([EvLog "Load QMÉ dataset"], Raise NotImplementedError).
Proof.
  split.
  - apply (get_dataset_unknown_tag ∅ "./data/qm9.db" "foobar" None).
    intros Hin. unfold known_tags in Hin. vm_compute in Hin.
    repeat (apply elem_of_cons in Hin as [Hin|Hin]; [discriminate Hin|]).
    by apply elem_of_nil in Hin.
  - apply (get_dataset_unknown_tag ∅ "./data/qm9.db" "qmé" None).
    intros Hin. unfold known_tags in Hin. vm_compute in Hin.
    repeat (apply elem_of_cons in Hin as [Hin|Hin]; [discriminate Hin|]).
    by apply elem_of_nil in Hin.
Defined.

(** C3. With the tag [CUSTOM] and a path whose extension is [.xyz], the
    dispatcher first converts the file at the path into the database whose
    path has [.db] in the place of [.xyz], then opens that database and
    returns it; with a path whose extension is [.db] it opens the path
    itself and converts nothing. *)
Theorem get_dataset_custom_extension (cfg : config) (dbpath : string)
    (dataset_properties : option (list string)) :
  ((splitext dbpath).2 = ".xyz" →
     ∃ file,
       dbpath = file +:+ ".xyz"
       ∧ get_dataset cfg dbpath "CUSTOM" dataset_properties
         = ([EvLog "Load CUSTOM dataset";
             EvCall (convert_xyz dbpath (file +:+ ".db"));
             EvCall (open_database (file +:+ ".db") dataset_properties)],
            Return (Constructed
                      (open_database (file +:+ ".db") dataset_properties))))
  ∧ ((splitext dbpath).2 = ".db" →
     get_dataset cfg dbpath "CUSTOM" dataset_properties
     = ([EvLog "Load CUSTOM dataset";
         EvCall (open_database dbpath dataset_properties)],
        Return (Constructed (open_database dbpath dataset_properties)))).
Proof.
  rewrite (get_dataset_custom cfg dbpath "CUSTOM" dataset_properties eq_refl).
  destruct (splitext dbpath) as [file ext] eqn:Hsplit. simpl.
  split; intros ->; [|reflexivity].
  exists file. split; [by apply splitext_join|reflexivity].
Qed.

Lemma get_dataset_custom_extension_witness :
  (∃ file,
     "data/foo.xyz" = file +:+ ".xyz"
     ∧ get_dataset ∅ "data/foo.xyz" "CUSTOM" (Some ["energy"])
       = ([EvLog "Load CUSTOM dataset";
           EvCall (convert_xyz "data/foo.xyz" (file +:+ ".db"));
           EvCall (open_database (file +:+ ".db") (Some ["energy"]))],
          Return (Constructed
                    (open_database (file +:+ ".db") (Some ["energy"])))))
  ∧ get_dataset ∅ "data/foo.db" "CUSTOM" (Some ["energy"])
    = ([EvLog "Load CUSTOM dataset";
        EvCall (open_database "data/foo.db" (Some ["energy"]))],
       Return (Constructed (open_database "data/foo.db" (Some ["energy"])))).
Proof.
  split.
  - apply (proj1 (get_dataset_custom_extension ∅ "data/foo.xyz"
                    (Some ["energy"]))).
    reflexivity.
  - apply (proj2 (get_dataset_custom_extension ∅ "data/foo.db"
                    (Some ["energy"]))).
    reflexivity.
Defined.

(** C4. With the tag [CUSTOM] and a path whose extension is neither [.db]
    nor [.xyz], the dispatcher fails with [NotImplementedError]; the run
    holds the log line alone: no conversion, no call that could write a
    file, and no dataset. *)
Theorem get_dataset_custom_unsupported (cfg : config) (dbpath : string)
    (dataset_properties : option (list string)) :
  (splitext dbpath).2 ≠ ".db" → (splitext dbpath).2 ≠ ".xyz" →
  get_dataset cfg dbpath "CUSTOM" dataset_properties
  = ([EvLog "Load CUSTOM dataset"], Raise NotImplementedError)
  ∧ calls_of (get_dataset cfg dbpath "CUSTOM" dataset_properties).1 = [].
Proof.
  intros Hdb Hxyz.
  rewrite (get_dataset_custom_other cfg dbpath "CUSTOM" dataset_properties
             eq_refl Hdb Hxyz).
  by split.
Qed.

Lemma get_dataset_custom_unsupported_witness :
  get_dataset ∅ "foo.bin" "CUSTOM" None
  = ([EvLog "Load CUSTOM dataset"], Raise NotImplementedError)
  ∧ calls_of (get_dataset ∅ "foo.bin" "CUSTOM" None).1 = [].
Proof.
  apply (get_dataset_custom_unsupported ∅ "foo.bin" None); discriminate.
Defined.

(** C9. The extension is compared as it is spelled: a path that ends in an
    upper- or mixed-case spelling of [.db] or of [.xyz] is not opened and
    not converted, the dispatcher fails with [NotImplementedError]. *)
Theorem get_dataset_custom_extension_case (cfg : config) (stem e : string)
    (dataset_properties : option (list string)) :
  extension_variant e →
  get_dataset cfg (stem +:+ e) "CUSTOM" dataset_properties
  = ([EvLog "Load CUSTOM dataset"], Raise NotImplementedError).
Proof.
  intros Hvar.
  destruct (splitext (stem +:+ e)) as [file ext] eqn:Hsplit.
  pose proof (splitext_join _ _ _ Hsplit) as Hjoin.
  destruct (variant_not_extension _ _ _ _ Hvar Hjoin) as [Hdb Hxyz].
  apply get_dataset_custom_other; [done|by rewrite Hsplit..].
Qed.

Lemma get_dataset_custom_extension_case_witness :
  get_dataset ∅ ("data/foo" +:+ ".XYZ") "CUSTOM" None
  = ([EvLog "Load CUSTOM dataset"], Raise NotImplementedError).
Proof.
  apply (get_dataset_custom_extension_case ∅ "data/foo" ".XYZ" None).
  split; [by right|split; discriminate].
Defined.

(** The dispatcher on the other tags, and on paths the sanity checks use. *)

Example get_dataset_iso17 :
  get_dataset (<["dbpath" := VStr "./data"]> (<["fold" := VStr "reference"]> ∅))
    "elsewhere" "iso17" (Some ["total_energy"])
  = let iso17 := Call c_ISO17 [VStr "./data"; VStr "reference"]
                   [("properties", VList ["total_energy"])] in
    ([EvLog "Load ISO17 dataset"; EvCall iso17], Return (Constructed iso17)).
Proof. reflexivity. Qed.

Example get_dataset_md17_missing :
  get_dataset (<["dbpath" := VStr "./data"]> ∅) "./data" "MD17" None
  = ([EvLog "Load MD17 dataset"], Raise (MissingConfigError ["molecule"])).
Proof. reflexivity. Qed.

Example get_dataset_hidden_db :
  get_dataset ∅ "data/.db" "custom" None
  = ([EvLog "Load CUSTOM dataset"], Raise NotImplementedError).
Proof. reflexivity. Qed.

(** ** Further properties of the resolver *)

Section resolver_more.
Implicit Types (P : list string) (M R acc : gmap string string).
Implicit Types (p q dbpath : string).

(** A run of the loop that returns has met present properties only. *)
Lemma collect_properties_return P M dbpath acc R :
  collect_properties P M dbpath acc = Return R → ∀ p, p ∈ P → p ∈ dom M.
Proof.
  revert acc. induction P as [|prop rest IH]; intros acc Hret p Hp.
  - by apply elem_of_nil in Hp.
  - simpl in Hret. destruct (M !! prop) as [v|] eqn:Hv; [|done].
    apply elem_of_cons in Hp as [->|Hp]; [|by eapply IH].
    apply elem_of_dom. by exists v.
Qed.

(** The loop adds to what it starts from. *)
Lemma collect_properties_acc P M dbpath acc :
  collect_properties P M dbpath acc
  = bind_outcome (collect_properties P M dbpath ∅) (λ R, Return (R ∪ acc)).
Proof.
  revert acc. induction P as [|prop rest IH]; intros acc; simpl.
  - by rewrite (left_id_L ∅ (∪)).
  - destruct (M !! prop) as [v|]; [|done].
    rewrite (IH (<[prop := v]> acc)), (IH (<[prop := v]> ∅)).
    destruct (collect_properties rest M dbpath ∅) as [R|e]; simpl; [|done].
    f_equal. rewrite (insert_union_singleton_l acc).
    rewrite (insert_union_singleton_l ∅), (right_id_L ∅ (∪)).
    by rewrite (assoc_L (∪)).
Qed.

Lemma collect_properties_app P1 P2 M dbpath acc :
  collect_properties (P1 ++ P2) M dbpath acc
  = bind_outcome (collect_properties P1 M dbpath acc)
      (λ R1, collect_properties P2 M dbpath R1).
Proof.
  revert acc. induction P1 as [|prop rest IH]; intros acc; simpl; [done|].
  destruct (M !! prop) as [v|]; [apply IH|done].
Qed.

(** What a successful run returns: the mapping cut down to the requested
    properties. *)
Lemma collect_properties_filter P M dbpath R :
  collect_properties P M dbpath ∅ = Return R →
  R = filter (λ kv, kv.1 ∈ P) M.
Proof.
  intros Hret.
  pose proof (collect_properties_return _ _ _ _ _ Hret) as Hin.
  destruct (collect_properties_present P M dbpath ∅ Hin)
    as (R' & HR' & _ & Hlk & Hout).
  rewrite Hret in HR'. injection HR' as <-.
  apply map_eq. intros k. destruct (decide (k ∈ P)) as [Hk|Hk].
  - rewrite (Hlk _ Hk). destruct (M !! k) as [v|] eqn:Hv.
    + symmetry. by apply map_lookup_filter_Some.
    + symmetry. apply map_lookup_filter_None. left. done.
  - rewrite (Hout _ Hk), lookup_empty. symmetry.
    apply map_lookup_filter_None. right. intros v _. done.
Qed.

End resolver_more.

(** X1. When [get_property_map] returns, the result is the mapping cut down
    to the requested properties: nothing is renamed and nothing is added. In
    particular a request for exactly the keys of the mapping returns the
    mapping itself. *)
Theorem get_property_map_restricts (P : list string)
    (pm : mapping_arg) (M R : gmap string string) (dbpath : string) :
  normalize_mapping pm = Return M →
  get_property_map P pm dbpath = Return R →
  R = filter (λ kv, kv.1 ∈ P) M
  ∧ R ⊆ M
  ∧ (list_to_set P = dom M → R = M).
Proof.
  intros Hnorm Hret. unfold get_property_map in Hret. rewrite Hnorm in Hret.
  simpl in Hret. apply collect_properties_filter in Hret as ->.
  split_and!; [done|apply map_filter_subseteq|].
  intros Hall. apply map_filter_id. intros k v Hkv. simpl.
  assert (k ∈ dom M) as Hk by (apply elem_of_dom; by exists v).
  rewrite <- Hall in Hk. by apply elem_of_list_to_set in Hk.
Qed.

Lemma get_property_map_restricts_witness :
  ∃ R, R = filter (λ kv, kv.1 ∈ ["forces"; "energy"]) energy_forces_mapping
       ∧ R ⊆ energy_forces_mapping
       ∧ (list_to_set ["forces"; "energy"] = dom energy_forces_mapping →
          R = energy_forces_mapping).
Proof.
  eexists.
  apply (get_property_map_restricts ["forces"; "energy"]
           (MapDict energy_forces_mapping) energy_forces_mapping _ "./data");
    reflexivity.
Defined.

(** X2. The result depends on which properties are requested, not on their
    order or on repetitions: two requests with the same elements that return
    give the same map. *)
Theorem get_property_map_same_elements (P P' : list string)
    (pm : mapping_arg) (R : gmap string string) (dbpath : string) :
  (∀ p, p ∈ P ↔ p ∈ P') →
  get_property_map P pm dbpath = Return R →
  get_property_map P' pm dbpath = Return R.
Proof.
  intros Hsame. unfold get_property_map.
  destruct (normalize_mapping pm) as [M|e]; simpl; [|done]. intros Hret.
  pose proof (collect_properties_return _ _ _ _ _ Hret) as Hin.
  destruct (collect_properties_present P' M dbpath ∅) as (R' & HR' & _).
  { intros p Hp. apply Hin. by apply Hsame. }
  rewrite HR'. f_equal.
  apply collect_properties_filter in Hret as ->, HR' as ->.
  apply map_filter_ext. intros k v _. simpl. split; apply Hsame.
Qed.

Lemma get_property_map_same_elements_witness :
  get_property_map ["energy"; "forces"; "energy"]
    (MapDict energy_forces_mapping) "./data"
  = get_property_map ["forces"; "energy"]
      (MapDict energy_forces_mapping) "./data".
Proof.
  destruct (get_property_map ["forces"; "energy"]
              (MapDict energy_forces_mapping) "./data") as [R|e] eqn:Hret;
    [|discriminate Hret].
  apply (get_property_map_same_elements ["forces"; "energy"]
           ["energy"; "forces"; "energy"] _ R "./data"); [|exact Hret].
  intros p. rewrite !elem_of_cons. tauto.
Defined.

(** X3. Resolving again against a result gives that result back: the
    returned map has every requested property as a key. *)
Theorem get_property_map_idempotent (P : list string) (pm : mapping_arg)
    (R : gmap string string) (dbpath dbpath' : string) :
  get_property_map P pm dbpath = Return R →
  get_property_map P (MapDict R) dbpath' = Return R.
Proof.
  unfold get_property_map.
  destruct (normalize_mapping pm) as [M|e]; simpl; [|done]. intros Hret.
  pose proof (collect_properties_return _ _ _ _ _ Hret) as Hin.
  destruct (collect_properties_present P M dbpath ∅ Hin)
    as (R0 & HR0 & Hdom & _).
  rewrite Hret in HR0. injection HR0 as <-.
  rewrite dom_empty_L, (right_id_L ∅ (∪)) in Hdom.
  destruct (collect_properties_present P R dbpath' ∅) as (R' & HR' & _).
  { intros p Hp. rewrite Hdom. by apply elem_of_list_to_set. }
  rewrite HR'. f_equal.
  apply collect_properties_filter in HR' as ->.
  apply map_filter_id. intros k v Hkv. simpl.
  assert (k ∈ dom R) as Hk by (apply elem_of_dom; by exists v).
  rewrite Hdom in Hk. by apply elem_of_list_to_set in Hk.
Qed.

Lemma get_property_map_idempotent_witness :
  get_property_map ["energy"]
    (MapDict (<["energy" := "total_energy"]> ∅)) "other.db"
  = Return (<["energy" := "total_energy"]> ∅).
Proof.
  apply (get_property_map_idempotent ["energy"]
           (MapDict energy_forces_mapping) _ "./data" "other.db").
  reflexivity.
Defined.

(** X4. A request made of two lists is resolved as the two requests one
    after the other: the first failure of the first list, else the first
    failure of the second, else the two results together. *)
Theorem get_property_map_app (P1 P2 : list string) (pm : mapping_arg)
    (dbpath : string) :
  get_property_map (P1 ++ P2) pm dbpath
  = bind_outcome (get_property_map P1 pm dbpath) (λ R1,
      bind_outcome (get_property_map P2 pm dbpath) (λ R2,
        Return (R2 ∪ R1))).
Proof.
  unfold get_property_map.
  destruct (normalize_mapping pm) as [M|e]; simpl; [|done].
  rewrite collect_properties_app.
  destruct (collect_properties P1 M dbpath ∅) as [R1|e]; simpl; [|done].
  by rewrite collect_properties_acc.
Qed.

(** ** Further properties of the string form *)

Section string_form_facts.
Implicit Types (s t a b k v : string) (c : ascii).
Implicit Types (acc m : gmap string string).

Lemma split_not_nil c s : PyStr.split c s ≠ [].
Proof.
  pose proof (split_length c s) as Hlen. intros Hnil. rewrite Hnil in Hlen.
  simpl in Hlen. lia.
Qed.

(** Splitting goes through a separator. *)
Lemma split_app_sep c a b :
  PyStr.split c (a +:+ String c b) = PyStr.split c a ++ PyStr.split c b.
Proof.
  induction a as [|x a IH].
  - change ("" +:+ String c b) with (String c b). simpl.
    by rewrite Ascii.eqb_refl.
  - rewrite app_cons. simpl. destruct (Ascii.eqb x c).
    + by rewrite IH.
    + rewrite IH. pose proof (split_not_nil c a) as Hne.
      by destruct (PyStr.split c a).
Qed.

Lemma count_app c a b :
  PyStr.count c (a +:+ b) = (PyStr.count c a + PyStr.count c b)%nat.
Proof.
  induction a as [|x a IH]; [done|]. rewrite app_cons. simpl.
  rewrite IH. lia.
Qed.

Lemma before_app c a b :
  PyStr.count c a = 0%nat → PyStr.before c (a +:+ String c b) = a.
Proof.
  induction a as [|x a IH].
  - intros _. change ("" +:+ String c b) with (String c b). simpl.
    by rewrite Ascii.eqb_refl.
  - rewrite app_cons. simpl. destruct (Ascii.eqb x c); [done|].
    intros H. by rewrite IH.
Qed.

Lemma after_app c a b :
  PyStr.count c a = 0%nat → PyStr.after c (a +:+ String c b) = b.
Proof.
  induction a as [|x a IH].
  - intros _. change ("" +:+ String c b) with (String c b). simpl.
    by rewrite Ascii.eqb_refl.
  - rewrite app_cons. simpl. destruct (Ascii.eqb x c); [done|].
    intros H. by rewrite IH.
Qed.

Lemma split_join c (l : list string) :
  l ≠ [] → Forall (λ e, PyStr.count c e = 0%nat) l →
  PyStr.split c (join (String c "") l) = l.
Proof.
  induction l as [|x [|y rest] IH]; intros Hne Hall; [done| |].
  - simpl. apply split_no_sep. by apply Forall_inv in Hall.
  - apply Forall_cons in Hall as [Hx Hrest].
    change (join (String c "") (x :: y :: rest))
      with (x +:+ String c (join (String c "") (y :: rest))).
    rewrite split_app_sep, (split_no_sep _ _ Hx), IH; done.
Qed.

(** The unpacking loop adds to what it starts from, and goes through a
    concatenation. *)
Lemma dict_of_pieces_acc (pieces : list (list string)) acc :
  dict_of_pieces pieces acc
  = bind_outcome (dict_of_pieces pieces ∅) (λ m, Return (m ∪ acc)).
Proof.
  revert acc. induction pieces as [|piece rest IH]; intros acc; simpl.
  - by rewrite (left_id_L ∅ (∪)).
  - destruct piece as [|k [|v [|w more]]]; try done.
    rewrite (IH (<[k := v]> acc)), (IH (<[k := v]> ∅)).
    destruct (dict_of_pieces rest ∅) as [m|e]; simpl; [|done].
    f_equal. rewrite (insert_union_singleton_l acc).
    rewrite (insert_union_singleton_l ∅), (right_id_L ∅ (∪)).
    by rewrite (assoc_L (∪)).
Qed.

Lemma dict_of_pieces_app (l1 l2 : list (list string)) acc :
  dict_of_pieces (l1 ++ l2) acc
  = bind_outcome (dict_of_pieces l1 acc) (λ m, dict_of_pieces l2 m).
Proof.
  revert acc. induction l1 as [|piece rest IH]; intros acc; simpl; [done|].
  destruct piece as [|k [|v [|w more]]]; first [done | by apply IH].
Qed.

Lemma one_colon_entry (kv : string * string) :
  plain kv.1 → plain kv.2 →
  PyStr.count "," (entry_of kv) = 0%nat
  ∧ one_colon (entry_of kv)
  ∧ PyStr.before ":" (entry_of kv) = kv.1
  ∧ PyStr.after ":" (entry_of kv) = kv.2.
Proof.
  intros [Hk1 Hk2] [Hv1 Hv2]. unfold entry_of, one_colon.
  change (kv.1 +:+ ":" +:+ kv.2) with (kv.1 +:+ String ":" kv.2).
  rewrite !count_app, before_app, after_app by done. simpl.
  rewrite Hk1, Hk2, Hv1, Hv2. done.
Qed.

Lemma dict_of_entries_pairs (kvs : list (string * string)) acc :
  Forall (λ kv, plain kv.1 ∧ plain kv.2) kvs →
  foldl (λ m entry, <[PyStr.before ":" entry := PyStr.after ":" entry]> m)
        acc (map entry_of kvs)
  = foldr (λ kv, <[kv.1 := kv.2]>) acc (reverse kvs).
Proof.
  revert acc. induction kvs as [|kv rest IH]; intros acc Hall; [done|].
  apply Forall_cons in Hall as [[Hk Hv] Hrest]. simpl.
  destruct (one_colon_entry kv Hk Hv) as (_ & _ & -> & ->).
  by rewrite (IH _ Hrest), reverse_cons, foldr_app.
Qed.

End string_form_facts.

(** X5. The string form [k1:v1,...,kn:vn] of a non-empty list of pairs,
    whose keys and values hold no comma and no colon, parses to the dict of
    those pairs, a later pair overriding an earlier one with the same key. *)
Theorem parse_string_form (kvs : list (string * string)) :
  kvs ≠ [] → Forall (λ kv, plain kv.1 ∧ plain kv.2) kvs →
  parse_property_mapping (string_form kvs)
  = Return (list_to_map (reverse kvs)).
Proof.
  intros Hne Hall. unfold parse_property_mapping, string_form.
  rewrite split_join.
  - rewrite dict_of_pieces_entries.
    + f_equal. by apply dict_of_entries_pairs.
    + apply Forall_map. eapply Forall_impl; [exact Hall|].
      intros kv [Hk Hv]. simpl. by apply one_colon_entry.
  - by destruct kvs.
  - apply Forall_map. eapply Forall_impl; [exact Hall|].
    intros kv [Hk Hv]. simpl. by apply one_colon_entry.
Qed.

Lemma parse_string_form_witness :
  parse_property_mapping
    (string_form [("energy", "E"); ("forces", "F"); ("energy", "U0")])
  = Return (list_to_map
              (reverse [("energy", "E"); ("forces", "F"); ("energy", "U0")])).
Proof.
  apply (parse_string_form [("energy", "E"); ("forces", "F"); ("energy", "U0")]).
  - discriminate.
  - repeat constructor.
Defined.

(** X6. Two string forms joined by a comma parse as the two in turn: the
    failure of the first, else the failure of the second, else the second
    dict over the first. *)
Theorem parse_property_mapping_comma (s1 s2 : string) :
  parse_property_mapping (s1 +:+ "," +:+ s2)
  = bind_outcome (parse_property_mapping s1) (λ M1,
      bind_outcome (parse_property_mapping s2) (λ M2,
        Return (M2 ∪ M1))).
Proof.
  unfold parse_property_mapping.
  change (s1 +:+ "," +:+ s2) with (s1 +:+ String "," s2).
  rewrite split_app_sep, map_app, dict_of_pieces_app.
  destruct (dict_of_pieces (map (PyStr.split ":") (PyStr.split "," s1)) ∅)
    as [M1|e]; simpl; [|done].
  by rewrite dict_of_pieces_acc.
Qed.

(** X7. An empty entry is not tolerated: the empty string, a string that
    starts with a comma and a string that ends with a comma all make the
    resolver raise the unpacking error, whatever is requested. *)
Theorem get_property_map_empty_entry (P : list string) (s dbpath : string) :
  get_property_map P (MapStr "") dbpath = Raise (ValueError_unpack 2 1)
  ∧ get_property_map P (MapStr ("," +:+ s)) dbpath
    = Raise (ValueError_unpack 2 1)
  ∧ ∃ got, got ≠ 2%nat
      ∧ get_property_map P (MapStr (s +:+ ",")) dbpath
        = Raise (ValueError_unpack 2 got).
Proof.
  split_and!; [reflexivity|reflexivity|].
  unfold get_property_map. simpl. unfold parse_property_mapping.
  change (s +:+ ",") with (s +:+ String "," "").
  rewrite split_app_sep, map_app, dict_of_pieces_app.
  destruct (dict_of_pieces (map (PyStr.split ":") (PyStr.split "," s)) ∅)
    as [M1|e] eqn:Hs; simpl.
  - by exists 1%nat.
  - destruct (decide (Exists (λ e, ¬ one_colon e) (PyStr.split "," s)))
      as [Hex|Hall].
    + destruct (dict_of_pieces_bad _ ∅ Hex) as (got & Hgot & Hraise).
      rewrite Hraise in Hs. injection Hs as <-. by exists got.
    + exfalso. rewrite dict_of_pieces_entries in Hs; [done|].
      apply Forall_forall. intros e' He'.
      destruct (decide (one_colon e')) as [|Hn]; [done|].
      exfalso. apply Hall. apply Exists_exists. by exists e'.
Qed.

(** ** Further properties of the dispatcher *)

Section dispatcher_more.
Implicit Types (cfg : config) (dbpath t file ext : string).
Implicit Types (props : option (list string)).

Local Ltac helper_case :=
  first [ left; eexists; split; [|reflexivity]; discriminate
        | right; eexists; reflexivity ].

(** A helper either lacks a value, or constructs its dataset. *)
Lemma helper_run (h : config → option (list string) → M dataset_obj)
    cfg props :
  h ∈ [get_iso17; get_ani1; get_md17; get_matproj] →
  (∃ c, is_dataset_class (call_fn c)
        ∧ h cfg props = ([EvCall c], Return (Constructed c)))
  ∨ (∃ names, h cfg props = ([], Raise (MissingConfigError names))).
Proof.
  intros Hh. repeat (apply elem_of_cons in Hh as [->|Hh]);
    [..|by apply elem_of_nil in Hh].
  - unfold get_iso17. destruct (cfg !! "dbpath"), (cfg !! "fold"); helper_case.
  - unfold get_ani1.
    destruct (cfg !! "dbpath"), (cfg !! "num_heavy_atoms"); helper_case.
  - unfold get_md17.
    destruct (cfg !! "dbpath"), (cfg !! "molecule"); helper_case.
  - unfold get_matproj.
    destruct (cfg !! "dbpath"), (cfg !! "cutoff"), (cfg !! "api_key");
      helper_case.
Qed.

(** The four ways a run of the dispatcher can go. *)
Lemma get_dataset_cases cfg dbpath t props :
  let log := EvLog ("Load " +:+ PyStr.upper t +:+ " dataset") in
  let r := get_dataset cfg dbpath t props in
  (PyStr.upper t = "QM9"
   ∧ r = ([log; EvCall (Call c_QM9 [VStr dbpath]
                          [("properties", props_value props)])],
          Return (Constructed (Call c_QM9 [VStr dbpath]
                                 [("properties", props_value props)]))))
  ∨ ((PyStr.upper t ∈ helper_tags)
     ∧ ((∃ c, is_dataset_class (call_fn c)
              ∧ r = ([log; EvCall c], Return (Constructed c)))
        ∨ (∃ names, r = ([log], Raise (MissingConfigError names)))))
  ∨ (PyStr.upper t = "CUSTOM"
     ∧ ∃ file ext, splitext dbpath = (file, ext)
       ∧ ((ext = ".db"
           ∧ r = ([log; EvCall (open_database dbpath props)],
                  Return (Constructed (open_database dbpath props))))
          ∨ (ext = ".xyz"
             ∧ r = ([log; EvCall (convert_xyz dbpath (file +:+ ".db"));
                     EvCall (open_database (file +:+ ".db") props)],
                    Return (Constructed
                              (open_database (file +:+ ".db") props))))
          ∨ (ext ≠ ".db" ∧ ext ≠ ".xyz"
             ∧ r = ([log], Raise NotImplementedError))))
  ∨ ((PyStr.upper t ∉ known_tags)
     ∧ r = ([log], Raise NotImplementedError)).
Proof.
  intros log r. subst log r. unfold get_dataset.
  assert (∀ h, h ∈ [get_iso17; get_ani1; get_md17; get_matproj] →
    let log := EvLog ("Load " +:+ PyStr.upper t +:+ " dataset") in
    let r := bind (log_info ("Load " +:+ PyStr.upper t +:+ " dataset"))
               (λ _, h cfg props) in
    (∃ c, is_dataset_class (call_fn c)
          ∧ r = ([log; EvCall c], Return (Constructed c)))
    ∨ (∃ names, r = ([log], Raise (MissingConfigError names)))) as Hhelper.
  { intros h Hh.
    destruct (helper_run h cfg props Hh) as [(c & Hc & ->)|(names & ->)];
      [left; by exists c|right; by exists names]. }
  destruct (String.eqb_spec (PyStr.upper t) "QM9") as [E1|N1].
  { left. by split. }
  destruct (String.eqb_spec (PyStr.upper t) "ISO17") as [E2|N2].
  { right; left. split; [rewrite E2; by left|].
    apply (Hhelper get_iso17). by left. }
  destruct (String.eqb_spec (PyStr.upper t) "ANI1") as [E3|N3].
  { right; left. split; [rewrite E3; by right; left|].
    apply (Hhelper get_ani1). by right; left. }
  destruct (String.eqb_spec (PyStr.upper t) "MD17") as [E4|N4].
  { right; left. split; [rewrite E4; by right; right; left|].
    apply (Hhelper get_md17). by right; right; left. }
  destruct (String.eqb_spec (PyStr.upper t) "MATPROJ") as [E5|N5].
  { right; left. split; [rewrite E5; by right; right; right; left|].
    apply (Hhelper get_matproj). by right; right; right; left. }
  destruct (String.eqb_spec (PyStr.upper t) "CUSTOM") as [E6|N6].
  { right; right; left. split; [done|].
    destruct (splitext dbpath) as [file ext]. exists file, ext.
    split; [done|].
    destruct (String.eqb_spec ext ".db") as [->|Ndb]; [left; by split|].
    destruct (String.eqb_spec ext ".xyz") as [->|Nxyz];
      [right; left; by split|].
    right; right. by split_and!. }
  right; right; right. split; [|done].
  unfold known_tags. intros Hin.
  repeat (apply elem_of_cons in Hin as [Hin|Hin]; [done|]).
  by apply elem_of_nil in Hin.
Qed.

End dispatcher_more.

(** X8. Every run of the dispatcher starts with its one log line, and what
    follows are collaborator calls only. The failures the dispatcher and its
    helpers raise themselves are an unsupported tag or extension
    ([NotImplementedError]) and a configuration value that is missing; both
    are raised before any collaborator is called, so such a run is the log
    line alone. Collaborators are taken to return: a failure inside a
    dataset class or inside the converter is not part of this statement. *)
Theorem get_dataset_own_failures_first (cfg : config) (dbpath t : string)
    (dataset_properties : option (list string)) :
  ∃ calls result,
    get_dataset cfg dbpath t dataset_properties
    = (EvLog ("Load " +:+ PyStr.upper t +:+ " dataset") :: map EvCall calls,
       result)
    ∧ (∀ e, result = Raise e →
         calls = []
         ∧ (e = NotImplementedError
            ∨ ∃ names, e = MissingConfigError names
                       ∧ PyStr.upper t ∈ helper_tags)).
Proof.
  destruct (get_dataset_cases cfg dbpath t dataset_properties)
    as [[_ ->]|[[Ht [(c & _ & ->)|(names & ->)]]
       |[(_ & file & ext & _ & [[_ ->]|[[_ ->]|(_ & _ & ->)]])|[_ ->]]]].
  - exists [Call c_QM9 [VStr dbpath]
              [("properties", props_value dataset_properties)]].
    eexists. split; [reflexivity|by intros e He].
  - exists [c]. eexists. split; [reflexivity|by intros e He].
  - exists []. eexists. split; [reflexivity|].
    intros e [= <-]. split; [done|]. right. by exists names.
  - exists [open_database dbpath dataset_properties].
    eexists. split; [reflexivity|by intros e He].
  - exists [convert_xyz dbpath (file +:+ ".db");
            open_database (file +:+ ".db") dataset_properties].
    eexists. split; [reflexivity|by intros e He].
  - exists []. eexists. split; [reflexivity|].
    intros e [= <-]. split; [done|by left].
  - exists []. eexists. split; [reflexivity|].
    intros e [= <-]. split; [done|by left].
Qed.

(** X9. When the dispatcher returns a dataset, that dataset is the object of
    the last call it made, the call is to a dataset class, and at most one
    call comes before it, which is then the conversion. *)
Theorem get_dataset_returns_last_call (cfg : config) (dbpath t : string)
    (dataset_properties : option (list string)) (c : call) :
  (get_dataset cfg dbpath t dataset_properties).2 = Return (Constructed c) →
  is_dataset_class (call_fn c)
  ∧ ∃ before,
      calls_of (get_dataset cfg dbpath t dataset_properties).1 = before ++ [c]
      ∧ (before = [] ∨ ∃ file, before = [convert_xyz dbpath file]).
Proof.
  destruct (get_dataset_cases cfg dbpath t dataset_properties)
    as [[_ ->]|[[_ [(c' & Hc' & ->)|(names & ->)]]
       |[(_ & file & ext & _ & [[_ ->]|[[_ ->]|(_ & _ & ->)]])|[_ ->]]]];
    simpl; intros [= <-] || intros [=].
  - split; [discriminate|]. exists []. split; [done|by left].
  - split; [done|]. exists []. split; [done|by left].
  - split; [discriminate|]. exists []. split; [done|by left].
  - split; [discriminate|]. exists [convert_xyz dbpath (file +:+ ".db")].
    split; [done|right; by exists (file +:+ ".db")].
Qed.

Lemma get_dataset_returns_last_call_witness :
  is_dataset_class (call_fn (open_database "mol.db" None))
  ∧ ∃ before,
      calls_of (get_dataset ∅ "mol.xyz" "custom" None).1
      = before ++ [open_database "mol.db" None]
      ∧ (before = [] ∨ ∃ file, before = [convert_xyz "mol.xyz" file]).
Proof.
  apply (get_dataset_returns_last_call ∅ "mol.xyz" "custom" None).
  reflexivity.
Defined.

(** X10. The converter runs in one situation only: the tag reads [CUSTOM]
    and the extension of the path is [.xyz]. Then it is called once, on the
    path. *)
Theorem get_dataset_converts_iff (cfg : config) (dbpath t : string)
    (dataset_properties : option (list string)) :
  (∃ c, c ∈ calls_of (get_dataset cfg dbpath t dataset_properties).1
        ∧ call_fn c = c_ext_xyz_to_db)
  ↔ PyStr.upper t = "CUSTOM" ∧ (splitext dbpath).2 = ".xyz".
Proof.
  destruct (get_dataset_cases cfg dbpath t dataset_properties)
    as [[Ht ->]|[[Ht [(c' & Hc' & ->)|(names & ->)]]
       |[(Ht & file & ext & Hsplit
            & [[-> ->]|[[-> ->]|(Hdb & Hxyz & ->)]])|[Ht ->]]]];
    simpl; split.
  all: try (intros (c & Hin & Hfn);
            repeat (apply elem_of_cons in Hin as [->|Hin]; [done|]);
            by apply elem_of_nil in Hin).
  all: try (intros [Hcustom _]; exfalso; rewrite Hcustom in Ht;
            first [discriminate Ht
                  | unfold helper_tags in Ht;
                    repeat (apply elem_of_cons in Ht as [Ht|Ht];
                            [discriminate Ht|]);
                    by apply elem_of_nil in Ht
                  | apply Ht; unfold known_tags;
                    by repeat first [left | right] ]).
  all: try (rewrite Hsplit; simpl; intros [_ Hext]; congruence).
  - intros _. by rewrite Hsplit.
  - intros _. exists (convert_xyz dbpath (file +:+ ".db")).
    split; [by left|done].
Qed.

(** X11. [NotImplementedError] is raised in two situations and no other: the
    uppercased tag is none of the six known ones, or it is [CUSTOM] and the
    extension of the path is neither [.db] nor [.xyz]. *)
Theorem get_dataset_unsupported_iff (cfg : config) (dbpath t : string)
    (dataset_properties : option (list string)) :
  (get_dataset cfg dbpath t dataset_properties).2 = Raise NotImplementedError
  ↔ PyStr.upper t ∉ known_tags
    ∨ (PyStr.upper t = "CUSTOM"
       ∧ (splitext dbpath).2 ≠ ".db" ∧ (splitext dbpath).2 ≠ ".xyz").
Proof.
  destruct (get_dataset_cases cfg dbpath t dataset_properties)
    as [[Ht ->]|[[Ht [(c' & Hc' & ->)|(names & ->)]]
       |[(Ht & file & ext & Hsplit
            & [[-> ->]|[[-> ->]|(Hdb & Hxyz & ->)]])|[Ht ->]]]];
    simpl; split; try done; try (intros _; by left).
  all: try (rewrite ?Hsplit; simpl; intros [Hnot|(Hcustom & Hdb' & Hxyz')];
            [|try done]).
  all: try (exfalso; apply Hnot; rewrite ?Ht; unfold known_tags;
            by repeat first [left | right]).
  all: try (exfalso; rewrite Hcustom in Ht; first [discriminate Ht
            | unfold helper_tags in Ht;
              repeat (apply elem_of_cons in Ht as [Ht|Ht]; [discriminate Ht|]);
              by apply elem_of_nil in Ht]).
  all: try (exfalso; unfold helper_tags, known_tags in *;
            repeat (apply elem_of_cons in Ht as [Ht|Ht];
                    [apply Hnot; rewrite Ht; by repeat first [left | right]|]);
            by apply elem_of_nil in Ht).
  - intros _. right. by rewrite Hsplit.
Qed.

(** *** The database a conversion leaves behind *)

Section converted_path.
Implicit Types (file x y r : string) (i d : Z) (n j : nat).

Lemma at_index_app_lt j file x :
  (j < String.length file)%nat →
  PyStr.at_index j (file +:+ x) = PyStr.at_index j file.
Proof.
  revert j. unfold PyStr.at_index.
  induction file as [|a file IH]; intros j Hj; simpl in Hj; [lia|].
  rewrite app_cons. destruct j as [|j]; simpl.
  - by destruct (file +:+ x), file.
  - apply IH. lia.
Qed.

(** The loop looks at the file name only, not at what follows it. *)
Lemma splitext_loop_prefix file x y extsep d n i :
  0 ≤ i → i + Z.of_nat n ≤ Z.of_nat (String.length file) →
  is_Some (splitext_loop (file +:+ x) extsep d n i) →
  is_Some (splitext_loop (file +:+ y) extsep d n i).
Proof.
  revert i. induction n as [|n IH]; intros i Hi Hn; simpl.
  - by intros [? ?].
  - rewrite !at_index_app_lt by lia.
    destruct (String.eqb _ _); [apply IH; lia|by eexists].
Qed.

Lemma splitext_dot_suffix file r :
  PyStr.count "." r = 0%nat → PyStr.count "/" r = 0%nat →
  PyStr.rfind "." (file +:+ String "." r) = Z.of_nat (String.length file)
  ∧ PyStr.rfind "/" (file +:+ String "." r) = PyStr.rfind "/" file.
Proof.
  intros Hd Hs. unfold PyStr.rfind. rewrite !rfind_from_app. simpl.
  rewrite !rfind_from_absent by done. split; [lia|done].
Qed.

(** A path split at its last dot stays split there when the suffix after
    the dot is replaced by another one. *)
Lemma splitext_swap_suffix file r r' :
  PyStr.count "." r = 0%nat → PyStr.count "/" r = 0%nat →
  PyStr.count "." r' = 0%nat → PyStr.count "/" r' = 0%nat →
  splitext (file +:+ String "." r) = (file, String "." r) →
  splitext (file +:+ String "." r') = (file, String "." r').
Proof.
  intros Hd Hs Hd' Hs'. unfold splitext, genericpath_splitext.
  destruct (splitext_dot_suffix file r Hd Hs) as [-> ->].
  destruct (splitext_dot_suffix file r' Hd' Hs') as [-> ->].
  pose proof (rfind_from_lower "/" file 0 (-1)) as Hlow.
  unfold PyStr.rfind in *.
  destruct (Z.ltb_spec (PyStr.rfind_from "/" file 0 (-1))
              (Z.of_nat (String.length file))) as [Hlt|_]; [|by intros [= _ ?]].
  destruct (splitext_loop (file +:+ String "." r) _ _ _ _) as [r0|] eqn:Hloop;
    [|by intros [= _ ?]].
  intros _.
  destruct (splitext_loop_prefix file (String "." r) (String "." r') "."
              (Z.of_nat (String.length file))
              (Z.to_nat (Z.of_nat (String.length file)
                         - (PyStr.rfind_from "/" file 0 (-1) + 1)))
              (PyStr.rfind_from "/" file 0 (-1) + 1)) as [r1 Hr1];
    [lia|lia|by rewrite Hloop|].
  rewrite Hr1. apply splitext_loop_cut in Hr1 as ->.
  by rewrite Nat2Z.id, take_app_length, drop_app_length.
Qed.

End converted_path.

(** X12. The database a conversion writes is not the file it reads, and it
    is one the dispatcher opens as it is: when the extension of the path is
    [.xyz], the target of the conversion differs from the path, and a later
    call on the target with a tag that reads [CUSTOM] opens the target with
    no conversion. *)
Theorem get_dataset_reopens_converted (cfg cfg' : config)
    (dbpath t' : string) (dataset_properties : option (list string)) :
  (splitext dbpath).2 = ".xyz" → PyStr.upper t' = "CUSTOM" →
  let target := (splitext dbpath).1 +:+ ".db" in
  target ≠ dbpath
  ∧ convert_xyz dbpath target
    ∈ calls_of (get_dataset cfg dbpath "CUSTOM" dataset_properties).1
  ∧ get_dataset cfg' target t' dataset_properties
    = ([EvLog "Load CUSTOM dataset";
        EvCall (open_database target dataset_properties)],
       Return (Constructed (open_database target dataset_properties))).
Proof.
  intros Hext Ht' target. subst target.
  destruct (splitext dbpath) as [file ext] eqn:Hsplit. simpl in Hext.
  subst ext. pose proof (splitext_join _ _ _ Hsplit) as ->.
  cbn [fst]. split_and!.
  - intros Heq. by apply (inj (String.append file)) in Heq.
  - rewrite (get_dataset_custom cfg _ "CUSTOM" dataset_properties eq_refl),
      Hsplit.
    simpl. by left.
  - rewrite (get_dataset_custom cfg' _ t' dataset_properties Ht').
    by rewrite (splitext_swap_suffix file "xyz" "db" eq_refl eq_refl
                  eq_refl eq_refl Hsplit).
Qed.

Lemma get_dataset_reopens_converted_witness :
  "data/mol.db" ≠ "data/mol.xyz"
  ∧ convert_xyz "data/mol.xyz" "data/mol.db"
    ∈ calls_of (get_dataset ∅ "data/mol.xyz" "CUSTOM" (Some ["energy"])).1
  ∧ get_dataset ∅ "data/mol.db" "Custom" (Some ["energy"])
    = ([EvLog "Load CUSTOM dataset";
        EvCall (open_database "data/mol.db" (Some ["energy"]))],
       Return (Constructed (open_database "data/mol.db" (Some ["energy"])))).
Proof.
  apply (get_dataset_reopens_converted ∅ ∅ "data/mol.xyz" "Custom"
           (Some ["energy"])); reflexivity.
Defined.

(** *** The helpers behind the other tags *)

(** X13. With a tag that reads [ISO17], the dataset is built by [get_iso17]
    from the configured [dbpath] and [fold], both positional, and the given
    properties; the path handed to the dispatcher is not used. Without one
    of the two values nothing is built. *)
Theorem get_dataset_iso17_branch (cfg : config) (dbpath t : string)
    (dataset_properties : option (list string)) :
  PyStr.upper t = "ISO17" →
  (∀ d fold, cfg !! "dbpath" = Some d → cfg !! "fold" = Some fold →
     get_dataset cfg dbpath t dataset_properties
     = let iso17 := Call c_ISO17 [d; fold]
                      [("properties", props_value dataset_properties)] in
       ([EvLog "Load ISO17 dataset"; EvCall iso17],
        Return (Constructed iso17)))
  ∧ (cfg !! "dbpath" = None ∨ cfg !! "fold" = None →
     ∃ e, get_dataset cfg dbpath t dataset_properties
          = ([EvLog "Load ISO17 dataset"], Raise e)).
Proof.
  intros Ht. unfold get_dataset, get_iso17. rewrite Ht. simpl. split.
  - intros d fold -> ->. reflexivity.
  - intros [->| ->]; [|destruct (cfg !! "dbpath")]; by eexists.
Qed.

Lemma get_dataset_iso17_branch_witness :
  get_dataset (<["dbpath" := VStr "./data"]> (<["fold" := VStr "reference"]> ∅))
    "elsewhere.db" "Iso17" None
  = ([EvLog "Load ISO17 dataset";
      EvCall (Call c_ISO17 [VStr "./data"; VStr "reference"]
                [("properties", VNone)])],
     Return (Constructed (Call c_ISO17 [VStr "./data"; VStr "reference"]
                            [("properties", VNone)]))).
Proof.
  apply (proj1 (get_dataset_iso17_branch
                  (<["dbpath" := VStr "./data"]>
                     (<["fold" := VStr "reference"]> ∅))
                  "elsewhere.db" "Iso17" None eq_refl));
    reflexivity.
Defined.

(** X14. With a tag that reads [ANI1], the dataset is built by [get_ani1]
    from the configured [dbpath], the configured [num_heavy_atoms] passed by
    keyword, and the given properties; the path handed to the dispatcher is
    not used. Without one of the two values nothing is built. *)
Theorem get_dataset_ani1_branch (cfg : config) (dbpath t : string)
    (dataset_properties : option (list string)) :
  PyStr.upper t = "ANI1" →
  (∀ d n, cfg !! "dbpath" = Some d → cfg !! "num_heavy_atoms" = Some n →
     get_dataset cfg dbpath t dataset_properties
     = let ani1 := Call c_ANI1 [d]
                     [("num_heavy_atoms", n);
                      ("properties", props_value dataset_properties)] in
       ([EvLog "Load ANI1 dataset"; EvCall ani1], Return (Constructed ani1)))
  ∧ (cfg !! "dbpath" = None ∨ cfg !! "num_heavy_atoms" = None →
     ∃ e, get_dataset cfg dbpath t dataset_properties
          = ([EvLog "Load ANI1 dataset"], Raise e)).
Proof.
  intros Ht. unfold get_dataset, get_ani1. rewrite Ht. simpl. split.
  - intros d n -> ->. reflexivity.
  - intros [->| ->]; [|destruct (cfg !! "dbpath")]; by eexists.
Qed.

Lemma get_dataset_ani1_branch_witness :
  get_dataset (<["dbpath" := VStr "./data/ani1.db"]>
                 (<["num_heavy_atoms" := VInt 2]> ∅))
    "elsewhere.db" "ani1" (Some ["energy"])
  = ([EvLog "Load ANI1 dataset";
      EvCall (Call c_ANI1 [VStr "./data/ani1.db"]
                [("num_heavy_atoms", VInt 2);
                 ("properties", VList ["energy"])])],
     Return (Constructed (Call c_ANI1 [VStr "./data/ani1.db"]
                            [("num_heavy_atoms", VInt 2);
                             ("properties", VList ["energy"])]))).
Proof.
  apply (proj1 (get_dataset_ani1_branch
                  (<["dbpath" := VStr "./data/ani1.db"]>
                     (<["num_heavy_atoms" := VInt 2]> ∅))
                  "elsewhere.db" "ani1" (Some ["energy"]) eq_refl));
    reflexivity.
Defined.

(** X15. With a tag that reads [MD17], the dataset is built by [get_md17]
    from the configured [dbpath], the configured [molecule] passed by
    keyword, and the given properties; the path handed to the dispatcher is
    not used. Without one of the two values nothing is built. *)
Theorem get_dataset_md17_branch (cfg : config) (dbpath t : string)
    (dataset_properties : option (list string)) :
  PyStr.upper t = "MD17" →
  (∀ d molecule,
     cfg !! "dbpath" = Some d → cfg !! "molecule" = Some molecule →
     get_dataset cfg dbpath t dataset_properties
     = let md17 := Call c_MD17 [d]
                     [("molecule", molecule);
                      ("properties", props_value dataset_properties)] in
       ([EvLog "Load MD17 dataset"; EvCall md17], Return (Constructed md17)))
  ∧ (cfg !! "dbpath" = None ∨ cfg !! "molecule" = None →
     ∃ e, get_dataset cfg dbpath t dataset_properties
          = ([EvLog "Load MD17 dataset"], Raise e)).
Proof.
  intros Ht. unfold get_dataset, get_md17. rewrite Ht. simpl. split.
  - intros d molecule -> ->. reflexivity.
  - intros [->| ->]; [|destruct (cfg !! "dbpath")]; by eexists.
Qed.

Lemma get_dataset_md17_branch_witness :
  get_dataset (<["dbpath" := VStr "./data"]>
                 (<["molecule" := VStr "aspirin"]> ∅))
    "elsewhere.db" "md17" None
  = ([EvLog "Load MD17 dataset";
      EvCall (Call c_MD17 [VStr "./data"]
                [("molecule", VStr "aspirin"); ("properties", VNone)])],
     Return (Constructed (Call c_MD17 [VStr "./data"]
                            [("molecule", VStr "aspirin");
                             ("properties", VNone)]))).
Proof.
  apply (proj1 (get_dataset_md17_branch
                  (<["dbpath" := VStr "./data"]>
                     (<["molecule" := VStr "aspirin"]> ∅))
                  "elsewhere.db" "md17" None eq_refl));
    reflexivity.
Defined.

(** X16. With a tag that reads [MATPROJ], the dataset is built by
    [get_matproj] from the configured [dbpath], [cutoff] and [api_key], all
    three positional and in that order, and the given properties; the path
    handed to the dispatcher is not used. Without one of the three values
    nothing is built. *)
Theorem get_dataset_matproj_branch (cfg : config) (dbpath t : string)
    (dataset_properties : option (list string)) :
  PyStr.upper t = "MATPROJ" →
  (∀ d cutoff api_key,
     cfg !! "dbpath" = Some d → cfg !! "cutoff" = Some cutoff →
     cfg !! "api_key" = Some api_key →
     get_dataset cfg dbpath t dataset_properties
     = let matproj := Call c_MaterialsProject [d; cutoff; api_key]
                        [("properties", props_value dataset_properties)] in
       ([EvLog "Load MATPROJ dataset"; EvCall matproj],
        Return (Constructed matproj)))
  ∧ (cfg !! "dbpath" = None ∨ cfg !! "cutoff" = None
     ∨ cfg !! "api_key" = None →
     ∃ e, get_dataset cfg dbpath t dataset_properties
          = ([EvLog "Load MATPROJ dataset"], Raise e)).
Proof.
  intros Ht. unfold get_dataset, get_matproj. rewrite Ht. simpl. split.
  - intros d cutoff api_key -> -> ->. reflexivity.
  - intros [->|[->| ->]];
      [|destruct (cfg !! "dbpath")
       |destruct (cfg !! "dbpath"), (cfg !! "cutoff")]; by eexists.
Qed.

Lemma get_dataset_matproj_branch_witness :
  get_dataset (<["dbpath" := VStr "./data/matproj.db"]>
                 (<["cutoff" := VFloat 5%float]>
                    (<["api_key" := VStr "key"]> ∅)))
    "elsewhere.db" "MatProj" None
  = ([EvLog "Load MATPROJ dataset";
      EvCall (Call c_MaterialsProject
                [VStr "./data/matproj.db"; VFloat 5%float; VStr "key"]
                [("properties", VNone)])],
     Return (Constructed (Call c_MaterialsProject
                            [VStr "./data/matproj.db"; VFloat 5%float;
                             VStr "key"]
                            [("properties", VNone)]))).
Proof.
  apply (proj1 (get_dataset_matproj_branch
                  (<["dbpath" := VStr "./data/matproj.db"]>
                     (<["cutoff" := VFloat 5%float]>
                        (<["api_key" := VStr "key"]> ∅)))
                  "elsewhere.db" "MatProj" None eq_refl));
    reflexivity.
Defined.

(** *** The named configurations *)

(** X17. Every named configuration holds what its own dataset needs: with
    the values of [custom], [qm9], [iso17], [ani1], [md17] or [matproj] in
    force over the default ones, the dispatcher returns a dataset built by
    one call, with that configuration's path and parameters. *)
Theorem named_configurations_dispatch (c : constants)
    (dataset_properties : option (list string)) :
  let run named :=
    get_dataset_injected (selected c named) dataset_properties in
  let built call log :=
    Some ([EvLog log; EvCall call], Return (Constructed call)) in
  let properties := ("properties", props_value dataset_properties) in
  run (NamedConfig.custom c)
  = built (open_database "./data/iso17/reference_eq.db" dataset_properties)
          "Load CUSTOM dataset"
  ∧ run (NamedConfig.qm9 c)
    = built (Call c_QM9 [VStr "./data/qm9.db"] [properties])
            "Load QM9 dataset"
  ∧ run (NamedConfig.iso17 c)
    = built (Call c_ISO17 [VStr "./data"; VStr "reference"] [properties])
            "Load ISO17 dataset"
  ∧ run (NamedConfig.ani1 c)
    = built (Call c_ANI1 [VStr "./data/ani1.db"]
               [("num_heavy_atoms", VInt 2); properties])
            "Load ANI1 dataset"
  ∧ run (NamedConfig.md17 c)
    = built (Call c_MD17 [VStr "./data"]
               [("molecule", VStr "aspirin"); properties])
            "Load MD17 dataset"
  ∧ run (NamedConfig.matproj c)
    = built (Call c_MaterialsProject
               [VStr "./data/matproj.db"; VFloat 5%float; VStr ""]
               [properties])
            "Load MATPROJ dataset".
Proof. intros run built properties. by split_and!. Qed.

(** *** File names that are an extension and nothing else *)

Lemma splitext_bare_suffix (dir r : string) :
  PyStr.count "." r = 0%nat → PyStr.count "/" r = 0%nat →
  splitext (String "." r) = (String "." r, "")
  ∧ splitext (dir +:+ "/" +:+ String "." r)
    = (dir +:+ "/" +:+ String "." r, "").
Proof.
  intros Hd Hs. unfold splitext, genericpath_splitext. split.
  - unfold PyStr.rfind. simpl. by rewrite !rfind_from_absent.
  - change (dir +:+ "/" +:+ String "." r)
      with (dir +:+ String "/" (String "." r)).
    unfold PyStr.rfind. rewrite !rfind_from_app. simpl.
    rewrite !rfind_from_absent by done.
    destruct (Z.ltb_spec (0 + Z.of_nat (String.length dir))
                (0 + Z.of_nat (String.length dir) + 1)) as [_|]; [|lia].
    by replace (Z.to_nat (0 + Z.of_nat (String.length dir) + 1
                          - (0 + Z.of_nat (String.length dir) + 1)))
      with 0%nat by lia.
Qed.

(** X18. A file whose name is an extension and nothing else has no
    extension for the dispatcher: on [.db], on [.xyz] and on either of them
    right after a slash, a tag that reads [CUSTOM] ends in
    [NotImplementedError] with nothing opened and nothing converted. *)
Theorem get_dataset_custom_bare_extension (cfg : config) (dir t : string)
    (dataset_properties : option (list string)) :
  PyStr.upper t = "CUSTOM" →
  Forall (λ dbpath,
            get_dataset cfg dbpath t dataset_properties
            = ([EvLog "Load CUSTOM dataset"], Raise NotImplementedError))
         [".db"; ".xyz"; dir +:+ "/" +:+ ".db"; dir +:+ "/" +:+ ".xyz"].
Proof.
  intros Ht.
  destruct (splitext_bare_suffix dir "db" eq_refl eq_refl) as [Hdb Hdb'].
  destruct (splitext_bare_suffix dir "xyz" eq_refl eq_refl) as [Hxyz Hxyz'].
  repeat constructor; apply get_dataset_custom_other; try done.
  all: first [by rewrite Hdb | by rewrite Hxyz
             | by rewrite Hdb' | by rewrite Hxyz'].
Qed.

Lemma get_dataset_custom_bare_extension_witness :
  Forall (λ dbpath,
            get_dataset ∅ dbpath "custom" None
            = ([EvLog "Load CUSTOM dataset"], Raise NotImplementedError))
         [".db"; ".xyz"; "data" +:+ "/" +:+ ".db"; "data" +:+ "/" +:+ ".xyz"].
Proof.
  apply (get_dataset_custom_bare_extension ∅ "data" "custom" None).
  reflexivity.
Defined.
